(** * cifuzz: the Gradle build adapter and the integration-test runner

    A shallow embedding of

    - package [gradle] (internal/build/gradle/gradle.go): the functions
      [GetGradleCommand], [buildGradleCommand], [GradlePluginVersion],
      [getDependencies], [GetBuildDirectory] and [Build];
    - package [shared] (the integration-test runner): the type
      [outputChecker] with its method [checkOutput], and [Run].

    Go code is embedded in a state monad whose computations end by
    returning, by panicking or by [runtime.Goexit] (which is how
    [testing.T.FailNow] leaves a goroutine).  Collaborators that live
    outside the two packages (the file system, [os/exec], the [regexp]
    engine, the supervised process) are interfaces; their answers are
    inputs of the model. *)

From Stdlib Require Import String Ascii List Bool Arith Lia.
Import ListNotations.
Open Scope string_scope.
Open Scope list_scope.

(* ================================================================== *)
(** * The Go fragment the two packages rely on *)
(* ================================================================== *)

Module Golang.

(** [exec.Cmd], as far as the code looks at it. *)
Record Cmd : Type := mkCmd {
  Path : string;
  Args : list string;
  Dir  : string
}.

(** [exec.Command(name, arg...)]: [Args] holds the command name followed
    by the arguments.  (For a bare name the library looks the command up
    in the search path; the code passes a path.) *)
Definition exec_Command (name : string) (args : list string) : Cmd :=
  {| Path := name; Args := name :: args; Dir := "" |}.

Definition cmd_String (c : Cmd) : string :=
  String.concat " " (Path c :: tl (Args c)).

(** Values of the interface type [error].  [Foreign] stands for an error
    handed out by a collaborator; the other constructors are the wrappers
    the code applies itself. *)
Inductive error : Type :=
| Foreign (descr : string)
| errors_New (msg : string)
| errors_WithStack (e : error)
| WrapSilentError (e : error)
| WrapExecError (e : error) (cmd : Cmd).

(** An [error] variable: [None] is [nil]. *)
Definition goerror : Type := option error.

Inductive panic : Type :=
| IndexOutOfRange (index length : nat)
| NilDereference.

(** How a call ends. *)
Inductive completion (A : Type) : Type :=
| Returned (a : A)
| Panicked (p : panic)
| Goexit.
Arguments Returned {A} a.
Arguments Panicked {A} p.
Arguments Goexit {A}.

(** Computations over a store [S]. *)
Definition Go (S A : Type) : Type := S -> completion A * S.

Definition ret {S A : Type} (a : A) : Go S A :=
  fun s => (Returned a, s).

Definition bind {S A B : Type} (m : Go S A) (k : A -> Go S B) : Go S B :=
  fun s =>
    match m s with
    | (Returned a, s') => k a s'
    | (Panicked p, s') => (Panicked p, s')
    | (Goexit, s') => (Goexit, s')
    end.

Definition get {S : Type} : Go S S := fun s => (Returned s, s).
Definition modify {S : Type} (f : S -> S) : Go S unit :=
  fun s => (Returned tt, f s).
Definition raise_panic {S A : Type} (p : panic) : Go S A :=
  fun s => (Panicked p, s).
Definition goexit {S A : Type} : Go S A := fun s => (Goexit, s).

(** Running a computation on a component of the store. *)
Definition zoom {S T A : Type} (proj : S -> T) (upd : T -> S -> S)
    (m : Go T A) : Go S A :=
  fun s => let (r, t') := m (proj s) in (r, upd t' s).

Declare Scope go_scope.
Delimit Scope go_scope with go.
Notation "x <- m ;; k" := (bind m (fun x => k))
  (at level 100, m at next level, right associativity) : go_scope.
Notation "' pat <- m ;; k" := (bind m (fun x => let 'pat := x in k))
  (at level 100, pat pattern, m at next level, right associativity) : go_scope.
Notation "m ;;; k" := (bind m (fun _ => k))
  (at level 100, right associativity) : go_scope.

(** Slice indexing [s[i]]: panics out of range. *)
Definition index {S : Type} (s : list string) (i : nat) : Go S string :=
  match nth_error s i with
  | Some x => ret x
  | None => raise_panic (IndexOutOfRange i (length s))
  end.

(** ** Package [strings]

    A text is a sequence of characters; a [string] of this model holds
    one code point per position, out of the code points below 256. *)

Definition newline : ascii := "010"%char.

(** [unicode.IsSpace] on the code points below 256. *)
Definition isSpace (c : ascii) : bool :=
  let n := nat_of_ascii c in
  (((9 <=? n) && (n <=? 13)) || (n =? 32) || (n =? 133) || (n =? 160))%nat.

Fixpoint trimLeft (s : string) : string :=
  match s with
  | EmptyString => EmptyString
  | String c s' => if isSpace c then trimLeft s' else s
  end.

Fixpoint trimRight (s : string) : string :=
  match s with
  | EmptyString => EmptyString
  | String c s' =>
      match trimRight s' with
      | EmptyString => if isSpace c then EmptyString else String c EmptyString
      | t => String c t
      end
  end.

Definition strings_TrimSpace (s : string) : string := trimRight (trimLeft s).

Fixpoint dropPrefix (p s : string) : option string :=
  match p, s with
  | EmptyString, _ => Some s
  | String a p', String b s' =>
      if Ascii.eqb a b then dropPrefix p' s' else None
  | String _ _, EmptyString => None
  end.

Definition strings_TrimPrefix (s prefix : string) : string :=
  match dropPrefix prefix s with
  | Some rest => rest
  | None => s
  end.

(** [strings.Split(s, string(sep))] for a one-character separator. *)
Fixpoint strings_Split (s : string) (sep : ascii) : list string :=
  match s with
  | EmptyString => [EmptyString]
  | String c s' =>
      if Ascii.eqb c sep then EmptyString :: strings_Split s' sep
      else match strings_Split s' sep with
           | h :: t => String c h :: t
           | [] => [String c EmptyString]
           end
  end.

(** ** Package [regexp]

    A compiled [*regexp.Regexp] is its source text ([String()]) together
    with the language it decides ([MatchString]). *)
Record Regexp : Type := mkRegexp {
  source : string;
  MatchString : string -> bool
}.

(** The marker expressions of package [gradle] are, under the flag
    [(?m)], a [^], a template, one named group holding a greedy "any
    character, any number of times", and a [$].  The template consists
    of literal characters and of [.], which stands for any character but
    a newline.  With the flag, [^] and [$] match at the line boundaries,
    and the group takes the rest of the line. *)
Fixpoint matchTemplate (template line : string) : option string :=
  match template, line with
  | EmptyString, _ => Some line
  | String t template', String c line' =>
      if Ascii.eqb t "."%char || Ascii.eqb t c
      then matchTemplate template' line'
      else None
  | String _ _, EmptyString => None
  end.

Fixpoint firstMarker (template : string) (lines : list string)
  : option (list string) :=
  match lines with
  | [] => None
  | l :: rest =>
      match matchTemplate template l with
      | Some value => Some [l; value]
      | None => firstMarker template rest
      end
  end.

(** [FindStringSubmatch] of such an expression: [None] is the nil slice,
    otherwise the leftmost match followed by its capture group. *)
Definition marker_FindStringSubmatch (template text : string)
  : option (list string) :=
  firstMarker template (strings_Split text newline).

(** [strings.HasPrefix(s, prefix)]. *)
Definition strings_HasPrefix (s prefix : string) : bool :=
  String.prefix prefix s.

(** [strings.Join(elems, string(sep))]. *)
Definition strings_Join (elems : list string) (sep : ascii) : string :=
  String.concat (String sep EmptyString) elems.

(** Every character of the text passes the test. *)
Fixpoint all_chars (f : ascii -> bool) (s : string) : bool :=
  match s with
  | EmptyString => true
  | String c s' => f c && all_chars f s'
  end.

Definition free_of (sep : ascii) (s : string) : bool :=
  all_chars (fun c => negb (Ascii.eqb c sep)) s.

End Golang.

(* ================================================================== *)
(** * Package [gradle] *)
(* ================================================================== *)

(** [build.Result] of package [internal/build]. *)
Module build.
Record Result : Type := mkResult {
  Name : string;
  BuildDir : string;
  ProjectDir : string;
  GeneratedCorpus : string;
  SeedCorpus : string;
  RuntimeDeps : list string
}.
End build.

Module gradle.
Import Golang.
Local Open Scope go_scope.

(** What the package asks of its surroundings.  A call into the
    operating system or into another package reads and may change the
    [World]; the answers are not constrained. *)
Class Platform : Type := {
  World : Type;
  runtime_GOOS : string;
  os_PathListSeparator : ascii;
  errors_Is_ErrNotExist : error -> bool;
  fileutil_SearchFileBackwards :
    string -> string -> World -> (string * goerror) * World;
  runfiles_GradlePath : World -> (string * goerror) * World;
  config_DetermineGradleBuildLanguage :
    string -> World -> (string * goerror) * World;
  exec_Output : Cmd -> World -> (string * goerror) * World;
  messaging_Instructions : string -> string;
  cmdutils_JazzerSeedCorpus : string -> string -> string;
  cmdutils_JazzerGeneratedCorpus : string -> string -> string
}.

(** What a run of the package leaves behind: the processes it spawned
    and the lines it logged, oldest first. *)
Inductive event : Type :=
| Spawn (cmd : Cmd)
| LogWarn (msg : string)
| LogPrint (msg : string)
| LogDebugf (format : string) (args : list string).

Record store `{Platform} : Type := mkStore {
  world : World;
  events : list event
}.

Section Package.
Context `{P : Platform}.

Definition call {A : Type} (f : World -> A * World) : Go store A :=
  fun s => let (a, w) := f (world s) in
           (Returned a, {| world := w; events := events s |}).

Definition emit (e : event) : Go store unit :=
  modify (fun s => {| world := world s; events := events s ++ [e] |}).

(** [cmd.Output()]: runs the command and returns its standard output. *)
Definition Output (cmd : Cmd) : Go store (string * goerror) :=
  emit (Spawn cmd) ;;; call (exec_Output cmd).

Definition classpathRegex : string -> option (list string) :=
  marker_FindStringSubmatch "cifuzz.test.classpath=".

Definition buildDirRegex : string -> option (list string) :=
  marker_FindStringSubmatch "cifuzz.buildDir=".

(** Indexing the result of [FindStringSubmatch]; the nil slice has
    length 0. *)
Definition submatch (m : option (list string)) (i : nat) : Go store string :=
  match m with
  | Some groups => index groups i
  | None => index [] i
  end.

Definition FindGradleWrapper (projectDir : string)
  : Go store (string * goerror) :=
  let wrapper :=
    if String.eqb runtime_GOOS "windows" then "gradlew.bat" else "gradlew" in
  call (fileutil_SearchFileBackwards projectDir wrapper).

Record ParallelOptions : Type := mkParallelOptions {
  Enabled : bool;
  NumJobs : nat
}.

(** [BuilderOptions]; the two writers play no part in the functions
    below. *)
Record BuilderOptions : Type := mkBuilderOptions {
  ProjectDir : string;
  Parallel : ParallelOptions
}.

Definition Builder : Type := BuilderOptions.

Definition GetGradleCommand (projectDir : string)
  : Go store (string * goerror) :=
  '(wrapper, err) <- FindGradleWrapper projectDir ;;
  if match err with
     | Some e => negb (errors_Is_ErrNotExist e)
     | None => false
     end
  then ret ("", err)
  else if negb (String.eqb wrapper "") then ret (wrapper, None)
  else
    '(gradleCmd, err) <- call runfiles_GradlePath ;;
    match err with
    | Some e => ret ("", Some (errors_WithStack e))
    | None => ret (gradleCmd, None)
    end.

Definition buildGradleCommand (projectDir : string) (args : list string)
  : Go store (option Cmd * goerror) :=
  '(gradleCmd, err) <- GetGradleCommand projectDir ;;
  match err with
  | Some e => ret (None, Some e)
  | None =>
      let cmd := exec_Command gradleCmd args in
      let cmd := {| Path := Path cmd; Args := Args cmd; Dir := projectDir |} in
      ret (Some cmd, None)
  end.

(** Use of a [*exec.Cmd]. *)
Definition deref (cmd : option Cmd) : Go store Cmd :=
  match cmd with
  | Some c => ret c
  | None => raise_panic NilDereference
  end.

Definition GradlePluginVersion (b : Builder) : Go store (string * goerror) :=
  '(cmd, err) <- buildGradleCommand (ProjectDir b)
                   ["cifuzzPrintPluginVersion"; "-q"] ;;
  match err with
  | Some e => ret ("", Some (errors_WithStack e))
  | None =>
      cmd <- deref cmd ;;
      emit (LogDebugf "Command: %s" [cmd_String cmd]) ;;;
      '(output, err) <- Output cmd ;;
      match err with
      | Some e => ret ("", Some (errors_WithStack e))
      | None => ret (strings_TrimPrefix output "cifuzz.plugin.version=", None)
      end
  end.

Definition getDependencies (b : Builder)
  : Go store (list string * goerror) :=
  '(cmd, err) <- buildGradleCommand (ProjectDir b)
                   ["cifuzzPrintTestClasspath"; "-q"] ;;
  match err with
  | Some e => ret ([], Some e)
  | None =>
      cmd <- deref cmd ;;
      emit (LogDebugf "Command: %s" [cmd_String cmd]) ;;;
      '(output, err) <- Output cmd ;;
      match err with
      | Some e => ret ([], Some (WrapExecError (errors_WithStack e) cmd))
      | None =>
          let classpath := classpathRegex output in
          group <- submatch classpath 1 ;;
          let deps :=
            strings_Split (strings_TrimSpace group) os_PathListSeparator in
          ret (deps, None)
      end
  end.

Definition GetBuildDirectory (projectDir : string)
  : Go store (string * goerror) :=
  '(cmd, err) <- buildGradleCommand projectDir ["cifuzzPrintBuildDir"; "-q"] ;;
  match err with
  | Some _ => ret ("", None)
  | None =>
      cmd <- deref cmd ;;
      emit (LogDebugf "Command: %s" [cmd_String cmd]) ;;;
      '(output, err) <- Output cmd ;;
      match err with
      | Some e => ret ("", Some (WrapExecError (errors_WithStack e) cmd))
      | None =>
          let result := buildDirRegex output in
          match result with
          | None =>
              ret ("", Some (errors_New
                "Unable to parse gradle build directory from init script."))
          | Some _ =>
              group <- submatch result 1 ;;
              let buildDir := strings_TrimSpace group in
              ret (buildDir, None)
          end
      end
  end.

Definition Build (b : Builder) (targetClass : string)
  : Go store (option build.Result * goerror) :=
  '(gradleBuildLanguage, err) <-
     call (config_DetermineGradleBuildLanguage (ProjectDir b)) ;;
  match err with
  | Some e => ret (None, Some e)
  | None =>
      '(version, err) <- GradlePluginVersion b ;;
      match err with
      | Some e =>
          emit (LogWarn "No cifuzz gradle plugin found") ;;;
          emit (LogPrint (messaging_Instructions gradleBuildLanguage)) ;;;
          ret (None, Some (WrapSilentError e))
      | None =>
          emit (LogDebugf "Found gradle plugin version: %s" [version]) ;;;
          let flags : list string :=
            if Enabled (Parallel b) then ["--parallel"] else [] in
          '(deps, err) <- getDependencies b ;;
          match err with
          | Some e => ret (None, Some e)
          | None =>
              let seedCorpus :=
                cmdutils_JazzerSeedCorpus targetClass (ProjectDir b) in
              let generatedCorpus :=
                cmdutils_JazzerGeneratedCorpus targetClass (ProjectDir b) in
              '(buildDir, err) <- GetBuildDirectory (ProjectDir b) ;;
              match err with
              | Some e => ret (None, Some e)
              | None =>
                  ret (Some {| build.Name := targetClass;
                               build.BuildDir := buildDir;
                               build.ProjectDir := ProjectDir b;
                               build.GeneratedCorpus := generatedCorpus;
                               build.SeedCorpus := seedCorpus;
                               build.RuntimeDeps := deps |}, None)
              end
          end
      end
  end.

(** The commands a run has spawned, by their argument vectors without
    the command name. *)
Definition spawned (evs : list event) : list (list string) :=
  flat_map (fun e => match e with
                     | Spawn cmd => [tl (Args cmd)]
                     | _ => []
                     end) evs.

End Package.

(** [os.Stat], of which [Validate] keeps the error only. *)
Class FileSystem `{P : Platform} : Type := {
  os_Stat : string -> World -> goerror * World
}.

Section Construction.
Context `{P : Platform} `{F : @FileSystem P}.

Definition Validate (opts : BuilderOptions) : Go store goerror :=
  if String.eqb (ProjectDir opts) ""
  then ret (Some (errors_New "ProjectDir is not set"))
  else
    err <- call (os_Stat (ProjectDir opts)) ;;
    match err with
    | Some e => ret (Some (errors_WithStack e))
    | None => ret None
    end.

Definition NewBuilder (opts : BuilderOptions)
  : Go store (option Builder * goerror) :=
  err <- Validate opts ;;
  match err with
  | Some e => ret (None, Some e)
  | None => ret (Some opts, None)
  end.

End Construction.
End gradle.

(* ================================================================== *)
(** * Package [shared]: the integration-test runner *)
(* ================================================================== *)

Module shared.
Import Golang.
Local Open Scope go_scope.

Inductive stream : Type := Stdout | Stderr.

(** The assertions of package [require] that the runner can fail, one
    constructor per call site. *)
Inductive failure : Type :=
| SeenUnexpectedOutput (pattern line : string)
| TerminationFailed (e : error)
| PipeCloseFailed (s : stream) (e : error)
| RoutinesFailed (e : error)
| ErrorExpected
| WaitFailed (e : error)
| ContextFailed (e : error)
| DidNotSee (remaining : list string).

(** The supervised process and its pipes, seen from the runner: the
    answer of the n-th call of [cmd.TerminateProcessGroup()], the answer
    of [Close()] on either pipe, and the classification of
    [executil.IsTerminatedExitErr]. *)
Class Process : Type := {
  TerminateProcessGroup : nat -> goerror;
  pipe_Close : stream -> goerror;
  IsTerminatedExitErr : goerror -> bool
}.

(** The test [t] and the process: the failures recorded so far, oldest
    first, and the number of calls of [cmd.TerminateProcessGroup()]. *)
Record harness : Type := mkHarness {
  failures : list failure;
  terminations : nat
}.

(** [t.FailNow()] records the failure and leaves the calling goroutine
    through [runtime.Goexit]; deferred calls (the unlocking of the mutex)
    still run. *)
Definition FailNow {A : Type} (f : failure) : Go harness A :=
  modify (fun h => {| failures := failures h ++ [f];
                      terminations := terminations h |}) ;;;
  goexit.

Definition require_NoError (f : error -> failure) (err : goerror)
  : Go harness unit :=
  match err with
  | Some e => FailNow (f e)
  | None => ret tt
  end.

Definition require_Error (f : failure) (err : goerror) : Go harness unit :=
  match err with
  | Some _ => ret tt
  | None => FailNow f
  end.

Definition require_True (f : failure) (value : bool) : Go harness unit :=
  if value then ret tt else FailNow f.

Record RunOptions : Type := mkRunOptions {
  FuzzTest : string;
  WorkDir : string;
  Env : list string;
  Command : list string;
  Args : list string;
  ExpectedOutputs : list Regexp;
  UnexpectedOutput : option Regexp;
  TerminateAfterExpectedOutput : bool;
  ExpectError : bool
}.

(** The struct [outputChecker].  Its mutex is held for the whole of
    [checkOutput], so that calls do not overlap: a call is one step of
    the model. *)
Record outputChecker : Type := mkOutputChecker {
  lenExpectedOutputs : nat;
  expectedOutputs : list Regexp;
  unexpectedOutput : option Regexp;
  terminateAfterExpectedOutput : bool;
  termationFunc : Go harness unit;
  hasSeenExpectedOutputs : bool;
  hasCalledTerminationFunc : bool
}.

Definition set_expectedOutputs (v : list Regexp) (c : outputChecker)
  : outputChecker :=
  {| lenExpectedOutputs := lenExpectedOutputs c;
     expectedOutputs := v;
     unexpectedOutput := unexpectedOutput c;
     terminateAfterExpectedOutput := terminateAfterExpectedOutput c;
     termationFunc := termationFunc c;
     hasSeenExpectedOutputs := hasSeenExpectedOutputs c;
     hasCalledTerminationFunc := hasCalledTerminationFunc c |}.

Definition set_hasSeenExpectedOutputs (v : bool) (c : outputChecker)
  : outputChecker :=
  {| lenExpectedOutputs := lenExpectedOutputs c;
     expectedOutputs := expectedOutputs c;
     unexpectedOutput := unexpectedOutput c;
     terminateAfterExpectedOutput := terminateAfterExpectedOutput c;
     termationFunc := termationFunc c;
     hasSeenExpectedOutputs := v;
     hasCalledTerminationFunc := hasCalledTerminationFunc c |}.

Definition set_hasCalledTerminationFunc (v : bool) (c : outputChecker)
  : outputChecker :=
  {| lenExpectedOutputs := lenExpectedOutputs c;
     expectedOutputs := expectedOutputs c;
     unexpectedOutput := unexpectedOutput c;
     terminateAfterExpectedOutput := terminateAfterExpectedOutput c;
     termationFunc := termationFunc c;
     hasSeenExpectedOutputs := hasSeenExpectedOutputs c;
     hasCalledTerminationFunc := v |}.

(** The store of a run: the checker, which both consumers and [Run]
    share, and the harness. *)
Record state : Type := mkState {
  checker : outputChecker;
  t : harness
}.

Definition the_checker : Go state outputChecker :=
  fun s => (Returned (checker s), s).

Definition update_checker (f : outputChecker -> outputChecker)
  : Go state unit :=
  modify (fun s => {| checker := f (checker s); t := t s |}).

Definition on_harness {A : Type} (m : Go harness A) : Go state A :=
  zoom t (fun h s => {| checker := checker s; t := h |}) m.

(** The loop of [checkOutput]: the patterns that do not match the line,
    in their order. *)
Definition remaining_after (line : string) (expected : list Regexp)
  : list Regexp :=
  fold_left
    (fun remainingExpectedOutputs expectedOutput =>
       if negb (MatchString expectedOutput line)
       then remainingExpectedOutputs ++ [expectedOutput]
       else remainingExpectedOutputs)
    expected [].

Definition checkOutput (line : string) : Go state unit :=
  c <- the_checker ;;
  match unexpectedOutput c with
  | Some unexpected =>
      if MatchString unexpected line
      then on_harness (FailNow (SeenUnexpectedOutput (source unexpected) line))
      else ret tt
  | None => ret tt
  end ;;;
  let remainingExpectedOutputs := remaining_after line (expectedOutputs c) in
  update_checker (set_expectedOutputs remainingExpectedOutputs) ;;;
  if (length remainingExpectedOutputs =? 0)%nat then
    update_checker (set_hasSeenExpectedOutputs true) ;;;
    if terminateAfterExpectedOutput c then
      update_checker (set_hasCalledTerminationFunc true) ;;;
      on_harness (termationFunc c)
    else ret tt
  else ret tt.

Section Runner.
Context `{X : Process}.

(** The closure [Run] stores in [termationFunc]. *)
Definition terminate : Go harness unit :=
  h <- get ;;
  modify (fun h => {| failures := failures h;
                      terminations := S (terminations h) |}) ;;;
  require_NoError TerminationFailed (TerminateProcessGroup (terminations h)).

(** The checker [Run] builds from its options. *)
Definition newOutputChecker (opts : RunOptions) : outputChecker :=
  {| lenExpectedOutputs := length (ExpectedOutputs opts);
     expectedOutputs := ExpectedOutputs opts;
     unexpectedOutput := UnexpectedOutput opts;
     terminateAfterExpectedOutput := TerminateAfterExpectedOutput opts;
     termationFunc := terminate;
     hasSeenExpectedOutputs := false;
     hasCalledTerminationFunc := false |}.

Definition start (opts : RunOptions) : state :=
  {| checker := newOutputChecker opts;
     t := {| failures := []; terminations := 0 |} |}.

(** One of the two goroutines of [routines]: every line the scanner
    yields goes to [checkOutput]; then the pipe is closed.  The variable
    [err], which the two goroutines share in the source, is taken to
    hold the answer of the goroutine's own [Close()] when it is
    tested. *)
Fixpoint consume (s : stream) (lines : list string) : Go state unit :=
  match lines with
  | line :: rest => checkOutput line ;;; consume s rest
  | [] => on_harness (require_NoError (PipeCloseFailed s) (pipe_Close s))
  end.

(** A consumer between two steps: the lines it still has to scan, or
    done (returned, or left through [Goexit]). *)
Inductive consumer : Type :=
| Scanning (pending : list string)
| Finished.

Definition consumer_step (s : stream) (k : consumer) (st : state)
  : consumer * state :=
  match k with
  | Finished => (Finished, st)
  | Scanning [] => (Finished, snd (consume s [] st))
  | Scanning (line :: rest) =>
      match checkOutput line st with
      | (Returned _, st') => (Scanning rest, st')
      | (_, st') => (Finished, st')
      end
  end.

(** The two consumers run concurrently; a schedule names, step by step,
    the consumer that moves.  Each interleaving of the calls of
    [checkOutput] that keeps the order of either stream is the run of a
    schedule. *)
Fixpoint interleave (schedule : list stream) (kout kerr : consumer)
    (st : state) : consumer * consumer * state :=
  match schedule with
  | [] => (kout, kerr, st)
  | Stdout :: schedule' =>
      let (k, st') := consumer_step Stdout kout st in
      interleave schedule' k kerr st'
  | Stderr :: schedule' =>
      let (k, st') := consumer_step Stderr kerr st in
      interleave schedule' kout k st'
  end.

Definition finish (s : stream) (k : consumer) (st : state) : state :=
  match k with
  | Finished => st
  | Scanning pending => snd (consume s pending st)
  end.

(** [routines.Wait()]: both consumers run to their end.  Both goroutine
    functions return nil, also when they are left through [Goexit]. *)
Definition routines_Wait (running : consumer * consumer * state)
  : goerror * state :=
  let '(kout, kerr, st) := running in
  (None, finish Stderr kerr (finish Stdout kout st)).

(** The branch the [select] of [Run] takes. *)
Inductive selected : Type :=
| WaitDelivered (waitErr : goerror)
| ContextDone (ctxErr : goerror).

(** One execution of the supervised command: the lines the two scanners
    yield, the interleaving of the consumers up to the moment [Run]
    leaves its [select], and the branch taken. *)
Record execution : Type := mkExecution {
  stdoutLines : list string;
  stderrLines : list string;
  schedule : list stream;
  choice : selected
}.

(** The state of the consumers when [Run] leaves its [select]. *)
Definition running (opts : RunOptions) (x : execution)
  : consumer * consumer * state :=
  interleave (schedule x) (Scanning (stdoutLines x))
    (Scanning (stderrLines x)) (start opts).

(** The last statement of [Run]. *)
Definition require_hasSeenExpectedOutputs : Go state unit :=
  c <- the_checker ;;
  on_harness (require_True (DidNotSee (map source (expectedOutputs c)))
                (hasSeenExpectedOutputs c)).

(** [Run], from the point where the command has been started (each
    step before that point ends the test through [require.NoError] when
    it fails). *)
Definition Run (opts : RunOptions) (x : execution)
  : completion unit * state :=
  match choice x with
  | WaitDelivered waitErr =>
      let (err, st) := routines_Wait (running opts x) in
      (on_harness (require_NoError RoutinesFailed err) ;;;
       c <- the_checker ;;
       if hasCalledTerminationFunc c && IsTerminatedExitErr waitErr
       then ret tt
       else
         on_harness (if ExpectError opts
                     then require_Error ErrorExpected waitErr
                     else require_NoError WaitFailed waitErr) ;;;
         require_hasSeenExpectedOutputs) st
  | ContextDone ctxErr =>
      let '(_, _, st) := running opts x in
      (on_harness (require_NoError ContextFailed ctxErr) ;;;
       require_hasSeenExpectedOutputs) st
  end.

(** A sequence of calls of [checkOutput], whichever goroutine issues
    them. *)
Fixpoint checkOutputs (lines : list string) (st : state) : state :=
  match lines with
  | [] => st
  | line :: rest => checkOutputs rest (snd (checkOutput line st))
  end.

(** ** Vocabulary of the statements *)

Definition unexpected_hit (unexpected : option Regexp) (line : string)
  : bool :=
  match unexpected with
  | Some u => MatchString u line
  | None => false
  end.

(** The patterns of [expected] that match none of the [lines]. *)
Definition unmatched (lines : list string) (expected : list Regexp)
  : list Regexp :=
  filter (fun p => negb (existsb (MatchString p) lines)) expected.

(** The lines of a stream that come before its first line with the
    unexpected pattern. *)
Fixpoint admitted (unexpected : option Regexp) (lines : list string)
  : list string :=
  match lines with
  | [] => []
  | line :: rest =>
      if unexpected_hit unexpected line then []
      else line :: admitted unexpected rest
  end.

Definition pending_of (unexpected : option Regexp) (k : consumer)
  : list string :=
  match k with
  | Scanning pending => admitted unexpected pending
  | Finished => []
  end.

(** The state [Run] finds after [routines.Wait()]. *)
Definition joined (opts : RunOptions) (x : execution) : state :=
  snd (routines_Wait (running opts x)).

(** The state [Run] finds when it leaves its [select] through the
    context. *)
Definition unjoined (opts : RunOptions) (x : execution) : state :=
  snd (running opts x).

(** The assertion on the exit status that fails, if one does. *)
Definition exit_status_failure (expectError : bool) (waitErr : goerror)
  : option failure :=
  match expectError, waitErr with
  | true, None => Some ErrorExpected
  | false, Some e => Some (WaitFailed e)
  | _, _ => None
  end.

Definition record_failure (f : failure) (st : state) : state :=
  {| checker := checker st;
     t := {| failures := failures (t st) ++ [f];
             terminations := terminations (t st) |} |}.

(** The checker keeps the invariant that [hasCalledTerminationFunc]
    implies [hasSeenExpectedOutputs], which implies that no pattern
    remains. *)
Definition settled (c : outputChecker) : Prop :=
  (hasCalledTerminationFunc c = true -> hasSeenExpectedOutputs c = true) /\
  (hasSeenExpectedOutputs c = true -> expectedOutputs c = []).

End Runner.

(** ** The filters for instructions *)

Definition FilterForInstructions (lines : list string) : list string :=
  fold_left
    (fun linesToAdd line =>
       if strings_HasPrefix line "    "
       then linesToAdd ++ [strings_TrimSpace line]
       else linesToAdd)
    lines [].

(** The variables of the loop of [FilterForInstructionBlocks]. *)
Record blocks_loop : Type := mkBlocksLoop {
  blocks : list (list string);
  inBlock : bool;
  currBlock : list string
}.

Definition blocks_step (v : blocks_loop) (line : string) : blocks_loop :=
  if strings_HasPrefix line "    "
  then {| blocks := blocks v;
          inBlock := true;
          currBlock := currBlock v ++ [line] |}
  else if inBlock v
  then {| blocks := blocks v ++ [currBlock v];
          inBlock := false;
          currBlock := [] |}
  else {| blocks := blocks v;
          inBlock := false;
          currBlock := currBlock v |}.

Definition FilterForInstructionBlocks (lines : list string)
  : list (list string) :=
  blocks
    (fold_left blocks_step lines
       {| blocks := []; inBlock := false; currBlock := [] |}).

(** The line is indented as an instruction is. *)
Definition indented (line : string) : bool := strings_HasPrefix line "    ".

(** Whether [hasSeenExpectedOutputs] is true once the [lines] have gone
    through a checker [c], none of them with the unexpected pattern: it
    was true, or there is a line and no pattern is left. *)
Definition seen_after (lines : list string) (c : outputChecker) : bool :=
  hasSeenExpectedOutputs c ||
  (negb (length lines =? 0)%nat &&
   (length (unmatched lines (expectedOutputs c)) =? 0)%nat).

End shared.

(* ================================================================== *)
(** * Concrete surroundings, for the examples *)
(* ================================================================== *)

Module fixtures.
Import Golang.

Fixpoint contains (needle hay : string) : bool :=
  String.prefix needle hay ||
  match hay with
  | EmptyString => false
  | String _ hay' => contains needle hay'
  end.

(** The expression that consists of the literal text [s] (letters,
    digits and spaces only): it matches the lines that contain [s]. *)
Definition literal (s : string) : Regexp :=
  {| source := s; MatchString := contains s |}.

(** The expression [^s$] for such a text [s]: it matches the line [s]. *)
Definition whole_line (s : string) : Regexp :=
  {| source := ("^" ++ s ++ "$")%string; MatchString := String.eqb s |}.

Definition terminated : error := Foreign "signal: terminated".

(** A process that can be terminated and whose pipes close. *)
Definition calm : shared.Process :=
  {| shared.TerminateProcessGroup := fun _ => None;
     shared.pipe_Close := fun _ => None;
     shared.IsTerminatedExitErr := fun err =>
       match err with
       | Some (Foreign descr) => String.eqb descr "signal: terminated"
       | _ => false
       end |}.

Definition options (expected : list Regexp) (unexpected : option Regexp)
    (terminateAfter expectError : bool) : shared.RunOptions :=
  {| shared.FuzzTest := "my_fuzz_test";
     shared.WorkDir := "";
     shared.Env := [];
     shared.Command := ["run"];
     shared.Args := [];
     shared.ExpectedOutputs := expected;
     shared.UnexpectedOutput := unexpected;
     shared.TerminateAfterExpectedOutput := terminateAfter;
     shared.ExpectError := expectError |}.

(** A project on Linux: the search for the wrapper script answers
    [wrapper], no gradle is installed besides, and a command with the
    arguments [args] prints [output args]. *)
Definition project (wrapper : string * goerror)
    (output : list string -> string * goerror) : gradle.Platform :=
  {| gradle.World := unit;
     gradle.runtime_GOOS := "linux";
     gradle.os_PathListSeparator := ":"%char;
     gradle.errors_Is_ErrNotExist := fun e =>
       match e with
       | Foreign descr => String.eqb descr "file does not exist"
       | _ => false
       end;
     gradle.fileutil_SearchFileBackwards := fun _ _ w => (wrapper, w);
     gradle.runfiles_GradlePath := fun w =>
       (("", Some (Foreign "gradle not found")), w);
     gradle.config_DetermineGradleBuildLanguage := fun _ w =>
       (("kotlin", None), w);
     gradle.exec_Output := fun cmd w => (output (tl (Args cmd)), w);
     gradle.messaging_Instructions := fun lang => ("plugins for " ++ lang)%string;
     gradle.cmdutils_JazzerSeedCorpus := fun target dir =>
       (dir ++ "/src/test/resources/" ++ target ++ "Inputs")%string;
     gradle.cmdutils_JazzerGeneratedCorpus := fun target dir =>
       (dir ++ "/.cifuzz-corpus/" ++ target)%string |}.

(** The store of such a project with the events [evs]. *)
Definition logged (wrapper : string * goerror)
    (output : list string -> string * goerror) (evs : list gradle.event)
  : @gradle.store (project wrapper output) :=
  @gradle.mkStore (project wrapper output) tt evs.

(** The store before anything has run. *)
Definition fresh (wrapper : string * goerror)
    (output : list string -> string * goerror)
  : @gradle.store (project wrapper output) :=
  logged wrapper output [].

(** The companion plugin answers all three queries. *)
Definition plugin_output (args : list string) : string * goerror :=
  match args with
  | "cifuzzPrintPluginVersion" :: _ => ("cifuzz.plugin.version=9.9.9", None)
  | "cifuzzPrintTestClasspath" :: _ => ("cifuzz.test.classpath=/a:/b", None)
  | "cifuzzPrintBuildDir" :: _ => ("cifuzz.buildDir=/out", None)
  | _ => ("", Some (Foreign "exit status 1"))
  end.

(** The classpath query succeeds but prints no marker line. *)
Definition silent_classpath_output (args : list string) : string * goerror :=
  match args with
  | "cifuzzPrintTestClasspath" :: _ => ("BUILD SUCCESSFUL", None)
  | _ => plugin_output args
  end.

(** The plugin is not applied: the version task does not exist. *)
Definition no_plugin_output (args : list string) : string * goerror :=
  match args with
  | "cifuzzPrintPluginVersion" :: _ => ("", Some (Foreign "exit status 1"))
  | _ => plugin_output args
  end.

Definition quiet (waitErr : goerror) : shared.execution :=
  {| shared.stdoutLines := [];
     shared.stderrLines := [];
     shared.schedule := [];
     shared.choice := shared.WaitDelivered waitErr |}.

(** Two patterns, termination once both have been seen; the command
    prints a third line before the signal reaches it. *)
Definition ready_done : shared.RunOptions :=
  options [whole_line "READY"; whole_line "DONE"] None true false.

Definition ready_done_more : shared.execution :=
  {| shared.stdoutLines := ["READY"; "DONE"; "INFO: still running"];
     shared.stderrLines := ["INFO: started"];
     shared.schedule := [shared.Stderr; shared.Stdout];
     shared.choice := shared.WaitDelivered (Some terminated) |}.

(** A line that has the unexpected pattern and an expected one. *)
Definition oops_or_panic : shared.RunOptions :=
  options [literal "oops"] (Some (literal "PANIC")) false false.

Definition panic_oops : shared.execution :=
  {| shared.stdoutLines := ["PANIC: oops"];
     shared.stderrLines := [];
     shared.schedule := [];
     shared.choice := shared.WaitDelivered None |}.

(** The lines come on different streams. *)
Definition oops_then_done : shared.execution :=
  {| shared.stdoutLines := ["READY"; "INFO: oops"];
     shared.stderrLines := ["DONE"];
     shared.schedule := [shared.Stdout; shared.Stderr];
     shared.choice := shared.WaitDelivered None |}.

(** The pattern never shows up. *)
Definition found (expectError : bool) : shared.RunOptions :=
  options [whole_line "FOUND"] None false expectError.

Definition not_found (waitErr : goerror) : shared.execution :=
  {| shared.stdoutLines := ["INFO: done"];
     shared.stderrLines := [];
     shared.schedule := [shared.Stdout];
     shared.choice := shared.WaitDelivered waitErr |}.

(** Nothing is expected. *)
Definition nothing_expected (expectError : bool) : shared.RunOptions :=
  options [] None false expectError.

Definition with_wrapper : string * goerror := ("/p/gradlew", None).
Definition unreadable : string * goerror :=
  ("", Some (Foreign "permission denied")).

(** The directory [/p] exists, and nothing else. *)
Definition only_p (wrapper : string * goerror)
    (output : list string -> string * goerror)
  : @gradle.FileSystem (project wrapper output) :=
  @gradle.Build_FileSystem (project wrapper output)
    (fun path w =>
       (if String.eqb path "/p" then None
        else Some (Foreign "no such file or directory"), w)).

(** Gradle prints more than the marker line. *)
Definition chatty_output (args : list string) : string * goerror :=
  match args with
  | "cifuzzPrintPluginVersion" :: _ => ("9.9.9", None)
  | "cifuzzPrintTestClasspath" :: _ =>
      (strings_Join
         ["Starting a Gradle Daemon";
          ("cifuzz.test.classpath=" ++ strings_Join ["/a"; "/b c"; "/d"] ":")
            %string;
          "cifuzz.test.classpath=/ignored"] newline, None)
  | "cifuzzPrintBuildDir" :: _ =>
      (strings_Join
         ["Starting a Gradle Daemon"; "cifuzz.buildDir= /out "; ""] newline,
       None)
  | _ => ("", Some (Foreign "exit status 1"))
  end.

(** The test classpath is empty. *)
Definition empty_classpath_output (args : list string) : string * goerror :=
  match args with
  | "cifuzzPrintTestClasspath" :: _ => ("cifuzz.test.classpath=", None)
  | _ => plugin_output args
  end.

Definition gradlew (task : string) : Cmd :=
  {| Path := "/p/gradlew"; Args := ["/p/gradlew"; task; "-q"]; Dir := "/p" |}.

(** The output of a command of cifuzz that asks for changes of two
    files. *)
Definition advice : list string :=
  ["Add to build.gradle:";
   "    plugins {";
   "        id cifuzz";
   "    }";
   "";
   "Add to settings.gradle:";
   "    include app";
   "Done."].

Definition the_builder : gradle.Builder :=
  {| gradle.ProjectDir := "/p";
     gradle.Parallel := {| gradle.Enabled := false; gradle.NumJobs := 0 |} |}.

End fixtures.

(* ================================================================== *)
(** * Facts about package [gradle] *)
(* ================================================================== *)

Module gradle_facts.
Import Golang gradle.
Local Open Scope go_scope.

Section Facts.
Context `{P : Platform}.

Lemma firstMarker_None (template : string) (lines : list string) :
  firstMarker template lines = None <->
  (forall l, In l lines -> matchTemplate template l = None).
Proof.
  induction lines as [|l rest IH]; simpl.
  - split; [intros _ l []|reflexivity].
  - destruct (matchTemplate template l) eqn:E.
    + split; [discriminate|].
      intros H. rewrite (H l (or_introl eq_refl)) in E. discriminate.
    + rewrite IH. split.
      * intros H l' [<-|Hin]; auto.
      * intros H l' Hin. apply H. now right.
Qed.

(** A text without a line that starts with the marker has no match. *)
Lemma classpathRegex_None (output : string) :
  (forall l, In l (strings_Split output newline) ->
             matchTemplate "cifuzz.test.classpath=" l = None) ->
  classpathRegex output = None.
Proof. intros H. apply firstMarker_None, H. Qed.

(** A command that was built is not nil. *)
Lemma buildGradleCommand_cases (projectDir : string) (args : list string)
    (s : store) :
  (exists g s', buildGradleCommand projectDir args s =
     (Returned (Some {| Path := g; Args := g :: args; Dir := projectDir |},
                None), s') /\ events s' = events s) \/
  (exists e s', buildGradleCommand projectDir args s =
     (Returned (None, Some e), s') /\ events s' = events s).
Proof.
  unfold buildGradleCommand, GetGradleCommand, FindGradleWrapper, bind, call.
  destruct (fileutil_SearchFileBackwards _ _ _) as [[wrapper err] w].
  destruct err as [e|]; [destruct (errors_Is_ErrNotExist e)|]; simpl;
    try (right; do 2 eexists; split; reflexivity);
    (destruct (String.eqb wrapper ""); simpl;
     [destruct (runfiles_GradlePath w) as [[g [e'|]] w']; simpl|]);
    solve [ left; do 2 eexists; split; reflexivity
          | right; do 2 eexists; split; reflexivity ].
Qed.

Lemma GradlePluginVersion_events (b : Builder) (s s' : store)
    (r : completion (string * goerror)) :
  GradlePluginVersion b s = (r, s') ->
  exists evs, events s' = events s ++ evs /\
              incl (spawned evs) [["cifuzzPrintPluginVersion"; "-q"]].
Proof.
  unfold GradlePluginVersion, bind.
  destruct (buildGradleCommand_cases (ProjectDir b)
              ["cifuzzPrintPluginVersion"; "-q"] s)
    as [(g & s1 & -> & Hev)|(e & s1 & -> & Hev)]; simpl.
  - unfold emit, modify, Output, bind, call, emit, modify; simpl.
    destruct (exec_Output _ _) as [[output [e|]] w]; simpl;
      intros [= <- <-]; simpl; rewrite Hev, <- app_assoc;
      eexists; (split; [reflexivity|]); simpl;
      intros a [<-|[]]; now left.
  - intros [= <- <-]. exists []. rewrite app_nil_r.
    split; [assumption|]. intros a [].
Qed.

(** C3.  When the classpath query succeeds and no line of its output
    starts with the marker [cifuzz.test.classpath=], [getDependencies]
    does not return an error: it indexes the nil match and panics with
    an index out of range. *)
Theorem getDependencies_without_marker (b : Builder) (s s1 : store)
    (cmd : Cmd) (output : string) (w2 : World) :
  buildGradleCommand (ProjectDir b) ["cifuzzPrintTestClasspath"; "-q"] s =
    (Returned (Some cmd, None), s1) ->
  exec_Output cmd (world s1) = ((output, None), w2) ->
  (forall l, In l (strings_Split output newline) ->
             matchTemplate "cifuzz.test.classpath=" l = None) ->
  getDependencies b s =
    (Panicked (IndexOutOfRange 1 0),
     {| world := w2;
        events := events s1 ++
                  [LogDebugf "Command: %s" [cmd_String cmd]; Spawn cmd] |}).
Proof.
  intros Hcmd Hout Hno.
  unfold getDependencies, bind. rewrite Hcmd. simpl.
  unfold Output, bind, call, emit, modify. simpl. rewrite Hout. simpl.
  rewrite (classpathRegex_None output Hno). simpl.
  unfold raise_panic. now rewrite <- app_assoc.
Qed.

(** The sibling [GetBuildDirectory] checks its match: without a marker
    line it returns an error. *)
Lemma GetBuildDirectory_without_marker (projectDir : string) (s s1 : store)
    (cmd : Cmd) (output : string) (w2 : World) :
  buildGradleCommand projectDir ["cifuzzPrintBuildDir"; "-q"] s =
    (Returned (Some cmd, None), s1) ->
  exec_Output cmd (world s1) = ((output, None), w2) ->
  buildDirRegex output = None ->
  fst (GetBuildDirectory projectDir s) =
    Returned ("", Some (errors_New
      "Unable to parse gradle build directory from init script.")).
Proof.
  intros Hcmd Hout Hno.
  unfold GetBuildDirectory, bind. rewrite Hcmd. simpl.
  unfold Output, bind, call, emit, modify. simpl. rewrite Hout. simpl.
  now rewrite Hno.
Qed.

(** C6.  When the query for the plugin version fails, [Build] logs the
    warning and the set-up instructions and returns the error wrapped
    as a silent error.  It stops there: the store is the one the query
    left, extended by the two log lines, and no command is spawned for
    the classpath or for the build directory. *)
Theorem Build_without_plugin (b : Builder) (targetClass : string)
    (s s2 : store) (lang version : string) (w1 : World) (e : error) :
  config_DetermineGradleBuildLanguage (ProjectDir b) (world s) =
    ((lang, None), w1) ->
  GradlePluginVersion b {| world := w1; events := events s |} =
    (Returned (version, Some e), s2) ->
  Build b targetClass s =
    (Returned (None, Some (WrapSilentError e)),
     {| world := world s2;
        events := events s2 ++
                  [LogWarn "No cifuzz gradle plugin found";
                   LogPrint (messaging_Instructions lang)] |}) /\
  exists added,
    events (snd (Build b targetClass s)) = events s ++ added /\
    ~ In ["cifuzzPrintTestClasspath"; "-q"] (spawned added) /\
    ~ In ["cifuzzPrintBuildDir"; "-q"] (spawned added).
Proof.
  intros Hlang Hversion.
  assert (HB : Build b targetClass s =
    (Returned (None, Some (WrapSilentError e)),
     {| world := world s2;
        events := events s2 ++
                  [LogWarn "No cifuzz gradle plugin found";
                   LogPrint (messaging_Instructions lang)] |})).
  { unfold Build, bind, call. rewrite Hlang. simpl. rewrite Hversion. simpl.
    unfold emit, modify. simpl. now rewrite <- app_assoc. }
  split; [exact HB|]. rewrite HB. simpl.
  destruct (GradlePluginVersion_events _ _ _ _ Hversion) as (evs & Hev & Hsp).
  simpl in Hev. rewrite Hev, <- app_assoc. eexists. split; [reflexivity|].
  unfold spawned in *. rewrite flat_map_app. simpl. rewrite app_nil_r.
  split; intros Hin; apply Hsp in Hin; destruct Hin as [Heq|[]];
    discriminate Heq.
Qed.

(** C9.  When the gradle command cannot be resolved for the query of
    the build directory, [GetBuildDirectory] returns the empty path and
    a nil error. *)
Theorem GetBuildDirectory_resolution_failure (projectDir : string)
    (s s' : store) (cmd : option Cmd) (e : error) :
  buildGradleCommand projectDir ["cifuzzPrintBuildDir"; "-q"] s =
    (Returned (cmd, Some e), s') ->
  GetBuildDirectory projectDir s = (Returned ("", None), s').
Proof.
  intros H. unfold GetBuildDirectory, bind. now rewrite H.
Qed.

End Facts.

Lemma getDependencies_without_marker_witness :
  getDependencies fixtures.the_builder
    (fixtures.fresh fixtures.with_wrapper fixtures.silent_classpath_output) =
  (Panicked (IndexOutOfRange 1 0),
   fixtures.logged fixtures.with_wrapper fixtures.silent_classpath_output
     [LogDebugf "Command: %s" ["/p/gradlew cifuzzPrintTestClasspath -q"];
      Spawn {| Path := "/p/gradlew";
               Args := ["/p/gradlew"; "cifuzzPrintTestClasspath"; "-q"];
               Dir := "/p" |}]).
Proof.
  apply (getDependencies_without_marker
           (P := fixtures.project fixtures.with_wrapper
                   fixtures.silent_classpath_output)
           fixtures.the_builder
           (fixtures.fresh fixtures.with_wrapper
              fixtures.silent_classpath_output)
           (fixtures.fresh fixtures.with_wrapper
              fixtures.silent_classpath_output)
           {| Path := "/p/gradlew";
              Args := ["/p/gradlew"; "cifuzzPrintTestClasspath"; "-q"];
              Dir := "/p" |}
           "BUILD SUCCESSFUL" tt).
  - reflexivity.
  - reflexivity.
  - simpl. intros l [<-|[]]. reflexivity.
Defined.

(** With such an output, [Build] panics as well. *)
Example Build_panics_without_marker :
  fst (Build fixtures.the_builder "com.example.FuzzTest"
         (fixtures.fresh fixtures.with_wrapper
            fixtures.silent_classpath_output)) =
  Panicked (IndexOutOfRange 1 0).
Proof. reflexivity. Qed.

(** With all three marker lines, [Build] returns the result. *)
Example Build_with_markers :
  fst (Build fixtures.the_builder "com.example.FuzzTest"
         (fixtures.fresh fixtures.with_wrapper fixtures.plugin_output)) =
  Returned
    (Some {| build.Name := "com.example.FuzzTest";
             build.BuildDir := "/out";
             build.ProjectDir := "/p";
             build.GeneratedCorpus := "/p/.cifuzz-corpus/com.example.FuzzTest";
             build.SeedCorpus :=
               "/p/src/test/resources/com.example.FuzzTestInputs";
             build.RuntimeDeps := ["/a"; "/b"] |}, None).
Proof. reflexivity. Qed.

Lemma Build_without_plugin_witness :
  fst (Build fixtures.the_builder "com.example.FuzzTest"
         (fixtures.fresh fixtures.with_wrapper fixtures.no_plugin_output)) =
  Returned (None, Some (WrapSilentError
                          (errors_WithStack (Foreign "exit status 1")))).
Proof.
  pose proof (Build_without_plugin
           (P := fixtures.project fixtures.with_wrapper
                   fixtures.no_plugin_output)
           fixtures.the_builder "com.example.FuzzTest"
           (fixtures.fresh fixtures.with_wrapper fixtures.no_plugin_output)
           (snd (GradlePluginVersion fixtures.the_builder
                   (fixtures.fresh fixtures.with_wrapper
                      fixtures.no_plugin_output)))
           "kotlin" "" tt (errors_WithStack (Foreign "exit status 1"))
           eq_refl eq_refl) as [H _].
  rewrite H. reflexivity.
Defined.

Lemma GetBuildDirectory_resolution_failure_witness :
  GetBuildDirectory "/p"
    (fixtures.fresh fixtures.unreadable fixtures.plugin_output) =
  (Returned ("", None),
   fixtures.fresh fixtures.unreadable fixtures.plugin_output).
Proof.
  apply (GetBuildDirectory_resolution_failure
           (P := fixtures.project fixtures.unreadable fixtures.plugin_output)
           "/p" (fixtures.fresh fixtures.unreadable fixtures.plugin_output)
           (fixtures.fresh fixtures.unreadable fixtures.plugin_output)
           None (Foreign "permission denied")).
  reflexivity.
Defined.

End gradle_facts.

(* ================================================================== *)
(** * Facts about package [shared] *)
(* ================================================================== *)

Module shared_facts.
Import Golang shared.
Local Open Scope go_scope.

(** ** One call of [checkOutput] *)

Lemma remaining_after_filter (line : string) (expected : list Regexp) :
  remaining_after line expected =
  filter (fun p => negb (MatchString p line)) expected.
Proof.
  unfold remaining_after.
  enough (H : forall acc,
    fold_left
      (fun r p => if negb (MatchString p line) then r ++ [p] else r)
      expected acc =
    acc ++ filter (fun p => negb (MatchString p line)) expected)
    by apply (H []).
  induction expected as [|p rest IH]; intros acc; simpl.
  - now rewrite app_nil_r.
  - rewrite IH. destruct (negb (MatchString p line)); [|reflexivity].
    now rewrite <- app_assoc.
Qed.

Lemma length_zero_nil {A : Type} (l : list A) :
  (length l =? 0)%nat = true <-> l = [].
Proof.
  destruct l; simpl; split; intros H; try reflexivity; discriminate.
Qed.

(** The line has the unexpected pattern: the failure is recorded, the
    goroutine is left, the checker is as it was. *)
Lemma checkOutput_hit (line : string) (st : state) :
  unexpected_hit (unexpectedOutput (checker st)) line = true ->
  exists u, unexpectedOutput (checker st) = Some u /\
    checkOutput line st =
      (Goexit, record_failure (SeenUnexpectedOutput (source u) line) st).
Proof.
  unfold unexpected_hit, checkOutput, bind, the_checker. simpl.
  destruct (unexpectedOutput (checker st)) as [u|]; [|discriminate].
  intros ->. exists u. split; reflexivity.
Qed.

(** Some pattern remains after the line. *)
Lemma checkOutput_remaining (line : string) (st : state) :
  unexpected_hit (unexpectedOutput (checker st)) line = false ->
  filter (fun p => negb (MatchString p line))
    (expectedOutputs (checker st)) <> [] ->
  checkOutput line st =
    (Returned tt,
     {| checker :=
          set_expectedOutputs
            (filter (fun p => negb (MatchString p line))
               (expectedOutputs (checker st))) (checker st);
        t := t st |}).
Proof.
  unfold unexpected_hit, checkOutput, bind, the_checker. simpl.
  rewrite remaining_after_filter. intros Hhit Hne.
  assert (Hlen : (length (filter (fun p => negb (MatchString p line))
                      (expectedOutputs (checker st))) =? 0)%nat = false).
  { destruct (length_zero_nil (filter (fun p => negb (MatchString p line))
                (expectedOutputs (checker st)))) as [H _].
    destruct (_ =? 0)%nat; [now elim Hne; apply H|reflexivity]. }
  destruct (unexpectedOutput (checker st)) as [u|];
    [rewrite Hhit|]; simpl; rewrite Hlen; reflexivity.
Qed.

(** No pattern remains after the line. *)
Lemma checkOutput_satisfied (line : string) (st : state) :
  unexpected_hit (unexpectedOutput (checker st)) line = false ->
  filter (fun p => negb (MatchString p line))
    (expectedOutputs (checker st)) = [] ->
  checkOutput line st =
    if terminateAfterExpectedOutput (checker st)
    then (fst (termationFunc (checker st) (t st)),
          {| checker :=
               set_hasCalledTerminationFunc true
                 (set_hasSeenExpectedOutputs true
                    (set_expectedOutputs [] (checker st)));
             t := snd (termationFunc (checker st) (t st)) |})
    else (Returned tt,
          {| checker :=
               set_hasSeenExpectedOutputs true
                 (set_expectedOutputs [] (checker st));
             t := t st |}).
Proof.
  unfold unexpected_hit, checkOutput, bind, the_checker. simpl.
  rewrite remaining_after_filter. intros Hhit ->.
  destruct (unexpectedOutput (checker st)) as [u|];
    [rewrite Hhit|]; simpl;
    (destruct (terminateAfterExpectedOutput (checker st)); simpl;
     [unfold on_harness, zoom; simpl;
      destruct (termationFunc (checker st) (t st)); reflexivity
     |reflexivity]).
Qed.

(** The three ways a call can go. *)
Ltac check_cases line st :=
  let Hhit := fresh "Hhit" in
  let HE := fresh "HE" in
  let u := fresh "u" in
  let Hu := fresh "Hu" in
  destruct (unexpected_hit (unexpectedOutput (checker st)) line) eqn:Hhit;
  [ destruct (checkOutput_hit line st Hhit) as (u & Hu & ->)
  | destruct (filter (fun p => negb (MatchString p line))
                (expectedOutputs (checker st))) eqn:HE;
    [ rewrite (checkOutput_satisfied line st Hhit HE)
    | rewrite (checkOutput_remaining line st Hhit);
      [ rewrite ?HE | rewrite HE; discriminate ] ] ].

(** What a call does to the list of patterns, however it ends. *)
Lemma checkOutput_expectedOutputs (line : string) (st : state) :
  expectedOutputs (checker (snd (checkOutput line st))) =
  if unexpected_hit (unexpectedOutput (checker st)) line
  then expectedOutputs (checker st)
  else filter (fun p => negb (MatchString p line))
         (expectedOutputs (checker st)).
Proof.
  check_cases line st; simpl; try reflexivity.
  destruct (terminateAfterExpectedOutput (checker st)); reflexivity.
Qed.

(** A call does not touch the configuration of the checker. *)
Lemma checkOutput_configuration (line : string) (st : state) :
  let c' := checker (snd (checkOutput line st)) in
  unexpectedOutput c' = unexpectedOutput (checker st) /\
  terminateAfterExpectedOutput c' =
    terminateAfterExpectedOutput (checker st) /\
  termationFunc c' = termationFunc (checker st) /\
  lenExpectedOutputs c' = lenExpectedOutputs (checker st).
Proof.
  check_cases line st; simpl; auto.
  destruct (terminateAfterExpectedOutput (checker st)) eqn:Hterm; simpl;
    rewrite ?Hterm; auto.
Qed.

(** A call that does not return has either seen the unexpected pattern
    or left no pattern behind. *)
Lemma checkOutput_left (line : string) (st : state) :
  fst (checkOutput line st) <> Returned tt ->
  unexpected_hit (unexpectedOutput (checker st)) line = true \/
  expectedOutputs (checker (snd (checkOutput line st))) = [].
Proof.
  check_cases line st; simpl; auto;
    try (destruct (terminateAfterExpectedOutput (checker st)); simpl; auto);
    try (intros H; now elim H).
Qed.

Lemma checkOutput_settled (line : string) (st : state) :
  settled (checker st) -> settled (checker (snd (checkOutput line st))).
Proof.
  unfold settled. intros [Hcalled Hseen].
  check_cases line st; simpl; auto.
  - destruct (terminateAfterExpectedOutput (checker st)); simpl; auto.
  - split; [exact Hcalled|]. intros H. rewrite (Hseen H) in HE.
    discriminate HE.
Qed.

(** ** Monotonicity *)

Lemma checkOutput_monotone (line : string) (st : state) :
  let c := checker st in
  let c' := checker (snd (checkOutput line st)) in
  incl (expectedOutputs c') (expectedOutputs c) /\
  length (expectedOutputs c') <= length (expectedOutputs c) /\
  (hasSeenExpectedOutputs c = true -> hasSeenExpectedOutputs c' = true) /\
  (hasCalledTerminationFunc c = true ->
   hasCalledTerminationFunc c' = true).
Proof.
  simpl. repeat split.
  - rewrite checkOutput_expectedOutputs.
    destruct (unexpected_hit _ _); [apply incl_refl|apply incl_filter].
  - rewrite checkOutput_expectedOutputs.
    destruct (unexpected_hit _ _); [apply le_n|apply filter_length_le].
  - check_cases line st; simpl; auto.
    destruct (terminateAfterExpectedOutput (checker st)); auto.
  - check_cases line st; simpl; auto.
    destruct (terminateAfterExpectedOutput (checker st)); auto.
Qed.

(** C8.  Across a sequence of calls of [checkOutput] the list of
    remaining patterns never grows: it stays within the list it was, it
    does not get longer, and once empty it stays empty; and
    [hasSeenExpectedOutputs], once true, stays true. *)
Theorem checker_monotone (lines : list string) (st : state) :
  let c := checker st in
  let c' := checker (checkOutputs lines st) in
  incl (expectedOutputs c') (expectedOutputs c) /\
  length (expectedOutputs c') <= length (expectedOutputs c) /\
  (expectedOutputs c = [] -> expectedOutputs c' = []) /\
  (hasSeenExpectedOutputs c = true -> hasSeenExpectedOutputs c' = true).
Proof.
  simpl. revert st.
  induction lines as [|line rest IH]; intros st; simpl.
  - repeat split; auto using incl_refl.
  - destruct (IH (snd (checkOutput line st))) as (Hi & Hl & He & Hs).
    destruct (checkOutput_monotone line st) as (Hi' & Hl' & Hs' & _).
    repeat split.
    + eapply incl_tran; eassumption.
    + lia.
    + intros Hnil. apply He. rewrite Hnil in Hl'.
      destruct (expectedOutputs (checker (snd (checkOutput line st))));
        [reflexivity|simpl in Hl'; lia].
    + auto.
Qed.

(** C7.  When the unexpected pattern is configured and matches the
    line, [checkOutput] fails the test at once, naming the pattern and
    the line, and leaves the goroutine.  The expected patterns play no
    part: the checker is left as it was, whatever its state. *)
Theorem checkOutput_unexpected (line : string) (st : state) (u : Regexp) :
  unexpectedOutput (checker st) = Some u ->
  MatchString u line = true ->
  checkOutput line st =
    (Goexit,
     {| checker := checker st;
        t := {| failures := failures (t st) ++
                            [SeenUnexpectedOutput (source u) line];
                terminations := terminations (t st) |} |}).
Proof.
  intros Hu Hmatch.
  unfold checkOutput, bind, the_checker. simpl. rewrite Hu, Hmatch.
  reflexivity.
Qed.

(** ** Patterns that match none of a list of lines *)

Lemma unmatched_step (lines : list string) (p : Regexp)
    (rest : list Regexp) :
  unmatched lines (p :: rest) =
  if existsb (MatchString p) lines then unmatched lines rest
  else p :: unmatched lines rest.
Proof.
  unfold unmatched. simpl. now destruct (existsb (MatchString p) lines).
Qed.

Lemma unmatched_nil_lines (expected : list Regexp) :
  unmatched [] expected = expected.
Proof.
  induction expected as [|p rest IH]; [reflexivity|].
  rewrite unmatched_step. cbn [existsb]. now rewrite IH.
Qed.

Lemma unmatched_nil (lines : list string) : unmatched lines [] = [].
Proof. reflexivity. Qed.

Lemma unmatched_cons (line : string) (lines : list string)
    (expected : list Regexp) :
  unmatched (line :: lines) expected =
  unmatched lines (filter (fun p => negb (MatchString p line)) expected).
Proof.
  induction expected as [|p rest IH]; [reflexivity|].
  rewrite unmatched_step. cbn [existsb filter].
  destruct (MatchString p line); cbn [orb negb]; [exact IH|].
  rewrite unmatched_step, IH. reflexivity.
Qed.

Lemma unmatched_app (lines lines' : list string) (expected : list Regexp) :
  unmatched (lines ++ lines') expected =
  unmatched lines' (unmatched lines expected).
Proof.
  revert expected. induction lines as [|l rest IH]; intros expected; simpl.
  - now rewrite unmatched_nil_lines.
  - now rewrite !unmatched_cons, IH.
Qed.

Lemma unmatched_swap (lines lines' : list string) (expected : list Regexp) :
  unmatched lines (unmatched lines' expected) =
  unmatched lines' (unmatched lines expected).
Proof.
  induction expected as [|p rest IH]; [reflexivity|].
  rewrite !unmatched_step.
  destruct (existsb (MatchString p) lines) eqn:E1,
           (existsb (MatchString p) lines') eqn:E2;
    rewrite ?unmatched_step, ?E1, ?E2, IH; reflexivity.
Qed.

Lemma In_unmatched (p : Regexp) (lines : list string)
    (expected : list Regexp) :
  In p (unmatched lines expected) <->
  In p expected /\ existsb (MatchString p) lines = false.
Proof.
  unfold unmatched. rewrite filter_In, negb_true_iff. reflexivity.
Qed.

Lemma admitted_incl (u : option Regexp) (lines : list string) :
  incl (admitted u lines) lines.
Proof.
  induction lines as [|l rest IH]; simpl; [apply incl_refl|].
  destruct (unexpected_hit u l).
  - intros a [].
  - intros a [<-|Hin]; [now left|right; now apply IH].
Qed.

Lemma admitted_all (u : option Regexp) (lines : list string) :
  existsb (unexpected_hit u) lines = false -> admitted u lines = lines.
Proof.
  induction lines as [|l rest IH]; simpl; [reflexivity|].
  destruct (unexpected_hit u l); simpl; [discriminate|].
  intros H. now rewrite IH.
Qed.

Lemma existsb_false_incl {A : Type} (f : A -> bool) (l l' : list A) :
  incl l l' -> existsb f l' = false -> existsb f l = false.
Proof.
  intros Hincl Hl'. destruct (existsb f l) eqn:E; [|reflexivity].
  apply existsb_exists in E. destruct E as (a & Hin & Ha).
  rewrite <- Hl'. symmetry. apply existsb_exists. exists a. auto.
Qed.

Section Runs.
Context `{X : Process}.

(** ** The two consumers *)

Lemma close_checker (s : stream) (st : state) :
  checker (snd (consume s [] st)) = checker st.
Proof.
  simpl. unfold on_harness, zoom.
  destruct (require_NoError _ _ _). reflexivity.
Qed.

(** A step of a consumer takes the patterns its line matches, and no
    line of the consumer counts from its first line with the unexpected
    pattern on. *)
Lemma consumer_step_unmatched (s : stream) (k k' : consumer)
    (st st' : state) :
  consumer_step s k st = (k', st') ->
  unexpectedOutput (checker st') = unexpectedOutput (checker st) /\
  unmatched (pending_of (unexpectedOutput (checker st)) k)
    (expectedOutputs (checker st)) =
  unmatched (pending_of (unexpectedOutput (checker st)) k')
    (expectedOutputs (checker st')).
Proof.
  destruct k as [[|line rest]|]; simpl.
  - intros [= <- <-]. simpl. fold (consume s [] st).
    rewrite close_checker. auto.
  - pose proof (checkOutput_expectedOutputs line st) as HE.
    pose proof (checkOutput_configuration line st) as (Hu & _).
    pose proof (checkOutput_left line st) as Hleft.
    destruct (unexpected_hit (unexpectedOutput (checker st)) line) eqn:Hhit.
    + destruct (checkOutput_hit line st Hhit) as (u & _ & Heq).
      rewrite Heq. intros [= <- <-]. simpl. auto.
    + destruct (checkOutput line st) as [[[]| |] st1]; simpl in *;
        intros [= <- <-]; simpl; (split; [exact Hu|]);
        rewrite unmatched_cons, <- HE; try reflexivity;
        (destruct Hleft as [|Hnil]; [discriminate|discriminate|]);
        rewrite Hnil; reflexivity.
  - intros [= <- <-]. auto.
Qed.

Lemma consume_unmatched (s : stream) (lines : list string) (st : state) :
  unexpectedOutput (checker (snd (consume s lines st))) =
    unexpectedOutput (checker st) /\
  expectedOutputs (checker (snd (consume s lines st))) =
    unmatched (admitted (unexpectedOutput (checker st)) lines)
      (expectedOutputs (checker st)).
Proof.
  revert st. induction lines as [|line rest IH]; intros st.
  - rewrite close_checker. simpl. now rewrite unmatched_nil_lines.
  - destruct (consumer_step s (Scanning (line :: rest)) st) as [k' st']
      eqn:Hstep.
    destruct (consumer_step_unmatched _ _ _ _ _ Hstep) as (Hu & Hun).
    simpl in Hstep. simpl consume. unfold bind.
    destruct (checkOutput line st) as [[[]| |] st1];
      injection Hstep as <- <-; unfold pending_of in Hun; simpl snd;
      rewrite Hun.
    + destruct (IH st1) as (Hu' & HE'). rewrite Hu', HE', Hu. auto.
    + rewrite unmatched_nil_lines. auto.
    + rewrite unmatched_nil_lines. auto.
Qed.

Lemma finish_unmatched (s : stream) (k : consumer) (st : state) :
  unexpectedOutput (checker (finish s k st)) =
    unexpectedOutput (checker st) /\
  expectedOutputs (checker (finish s k st)) =
    unmatched (pending_of (unexpectedOutput (checker st)) k)
      (expectedOutputs (checker st)).
Proof.
  destruct k as [pending|]; simpl.
  - apply consume_unmatched.
  - now rewrite unmatched_nil_lines.
Qed.

Lemma interleave_unmatched (sched : list stream) (kout kerr : consumer)
    (st : state) :
  let '(kout', kerr', st') := interleave sched kout kerr st in
  unexpectedOutput (checker st') = unexpectedOutput (checker st) /\
  unmatched (pending_of (unexpectedOutput (checker st)) kerr')
    (unmatched (pending_of (unexpectedOutput (checker st)) kout')
       (expectedOutputs (checker st'))) =
  unmatched (pending_of (unexpectedOutput (checker st)) kerr)
    (unmatched (pending_of (unexpectedOutput (checker st)) kout)
       (expectedOutputs (checker st))).
Proof.
  revert kout kerr st.
  induction sched as [|[|] sched IH]; intros kout kerr st; simpl; auto.
  - destruct (consumer_step Stdout kout st) as [k st1] eqn:Hstep.
    destruct (consumer_step_unmatched _ _ _ _ _ Hstep) as (Hu & Hun).
    specialize (IH k kerr st1).
    destruct (interleave sched k kerr st1) as [[kout' kerr'] st'].
    rewrite Hu in IH. destruct IH as (Hu' & IH).
    split; [congruence|]. rewrite IH, Hun. reflexivity.
  - destruct (consumer_step Stderr kerr st) as [k st1] eqn:Hstep.
    destruct (consumer_step_unmatched _ _ _ _ _ Hstep) as (Hu & Hun).
    specialize (IH kout k st1).
    destruct (interleave sched kout k st1) as [[kout' kerr'] st'].
    rewrite Hu in IH. destruct IH as (Hu' & IH).
    split; [congruence|]. rewrite IH.
    rewrite (unmatched_swap _ _ (expectedOutputs (checker st1))), <- Hun.
    apply unmatched_swap.
Qed.

(** After the join, the patterns that remain are those that match no
    line that comes, in its stream, before the first line with the
    unexpected pattern; the interleaving plays no part. *)
Lemma joined_expectedOutputs (opts : RunOptions) (x : execution) :
  expectedOutputs (checker (joined opts x)) =
  unmatched
    (admitted (UnexpectedOutput opts) (stdoutLines x) ++
     admitted (UnexpectedOutput opts) (stderrLines x))
    (ExpectedOutputs opts).
Proof.
  unfold joined, running, routines_Wait.
  pose proof (interleave_unmatched (schedule x) (Scanning (stdoutLines x))
                (Scanning (stderrLines x)) (start opts)) as H.
  destruct (interleave _ _ _ _) as [[kout kerr] st]. simpl in *.
  destruct H as (Hu & H).
  destruct (finish_unmatched Stdout kout st) as (Hu1 & HE1).
  destruct (finish_unmatched Stderr kerr (finish Stdout kout st))
    as (_ & HE2).
  rewrite HE2, Hu1, HE1, Hu, H. now rewrite unmatched_app.
Qed.

(** ** Invariants of the checker along a run *)

Lemma consume_preserves (I : outputChecker -> Prop) :
  (forall line st, I (checker st) ->
                   I (checker (snd (checkOutput line st)))) ->
  forall s lines st, I (checker st) ->
                     I (checker (snd (consume s lines st))).
Proof.
  intros Hcheck s lines. induction lines as [|line rest IH]; intros st HI.
  - now rewrite close_checker.
  - simpl consume. unfold bind. specialize (Hcheck line st HI).
    destruct (checkOutput line st) as [[a| |] st1]; simpl in *; auto.
Qed.

Lemma consumer_step_preserves (I : outputChecker -> Prop) :
  (forall line st, I (checker st) ->
                   I (checker (snd (checkOutput line st)))) ->
  forall s k st, I (checker st) ->
                 I (checker (snd (consumer_step s k st))).
Proof.
  intros Hcheck s [[|line rest]|] st HI; simpl; auto.
  - fold (consume s [] st). now rewrite close_checker.
  - specialize (Hcheck line st HI).
    destruct (checkOutput line st) as [[a| |] st1]; simpl in *; auto.
Qed.

Lemma interleave_preserves (I : outputChecker -> Prop) :
  (forall line st, I (checker st) ->
                   I (checker (snd (checkOutput line st)))) ->
  forall sched kout kerr st,
    I (checker st) -> I (checker (snd (interleave sched kout kerr st))).
Proof.
  intros Hcheck sched.
  induction sched as [|[|] sched IH]; intros kout kerr st HI; simpl; auto.
  - pose proof (consumer_step_preserves I Hcheck Stdout kout st HI) as H.
    destruct (consumer_step Stdout kout st) as [k st1]. now apply IH.
  - pose proof (consumer_step_preserves I Hcheck Stderr kerr st HI) as H.
    destruct (consumer_step Stderr kerr st) as [k st1]. now apply IH.
Qed.

Lemma run_preserves (I : outputChecker -> Prop) :
  (forall line st, I (checker st) ->
                   I (checker (snd (checkOutput line st)))) ->
  forall opts x,
    I (newOutputChecker opts) ->
    I (checker (joined opts x)) /\ I (checker (unjoined opts x)).
Proof.
  intros Hcheck opts x HI.
  pose proof (interleave_preserves I Hcheck (schedule x)
                (Scanning (stdoutLines x)) (Scanning (stderrLines x))
                (start opts) HI) as H.
  unfold joined, unjoined, running, routines_Wait.
  destruct (interleave _ _ _ _) as [[kout kerr] st]. simpl in *.
  split; [|exact H].
  assert (Hfin : forall s k st0, I (checker st0) ->
                                 I (checker (finish s k st0))).
  { intros s [pending|] st0 H0; simpl; auto.
    now apply consume_preserves. }
  auto.
Qed.

Lemma joined_settled (opts : RunOptions) (x : execution) :
  settled (checker (joined opts x)).
Proof.
  apply (run_preserves settled); [exact checkOutput_settled|].
  split; simpl; discriminate.
Qed.

(** ** [Run] after the join *)

Lemma routines_Wait_joined (opts : RunOptions) (x : execution) :
  routines_Wait (running opts x) = (None, joined opts x).
Proof.
  unfold joined. now destruct (running opts x) as [[kout kerr] st].
Qed.

Lemma Run_wait (opts : RunOptions) (x : execution) (waitErr : goerror) :
  choice x = WaitDelivered waitErr ->
  Run opts x =
    if hasCalledTerminationFunc (checker (joined opts x)) &&
       IsTerminatedExitErr waitErr
    then (Returned tt, joined opts x)
    else match exit_status_failure (ExpectError opts) waitErr with
         | Some f => (Goexit, record_failure f (joined opts x))
         | None =>
             if hasSeenExpectedOutputs (checker (joined opts x))
             then (Returned tt, joined opts x)
             else (Goexit,
                   record_failure
                     (DidNotSee (map source
                        (expectedOutputs (checker (joined opts x)))))
                     (joined opts x))
         end.
Proof.
  intros Hchoice. unfold Run. rewrite Hchoice, routines_Wait_joined.
  generalize (joined opts x). intros [c h].
  unfold bind, on_harness, zoom, the_checker, require_hasSeenExpectedOutputs,
    bind, the_checker, on_harness, zoom, record_failure. simpl.
  destruct (hasCalledTerminationFunc c && IsTerminatedExitErr waitErr);
    [reflexivity|].
  destruct (ExpectError opts), waitErr as [e|]; simpl; try reflexivity;
    destruct (hasSeenExpectedOutputs c); reflexivity.
Qed.

Lemma Run_context (opts : RunOptions) (x : execution) (ctxErr : goerror) :
  choice x = ContextDone ctxErr ->
  Run opts x =
    match ctxErr with
    | Some e => (Goexit, record_failure (ContextFailed e) (unjoined opts x))
    | None =>
        if hasSeenExpectedOutputs (checker (unjoined opts x))
        then (Returned tt, unjoined opts x)
        else (Goexit,
              record_failure
                (DidNotSee (map source
                   (expectedOutputs (checker (unjoined opts x)))))
                (unjoined opts x))
    end.
Proof.
  intros Hchoice. unfold Run, unjoined. rewrite Hchoice.
  destruct (running opts x) as [[kout kerr] [c h]].
  unfold bind, on_harness, zoom, the_checker, require_hasSeenExpectedOutputs,
    bind, the_checker, on_harness, zoom, record_failure. simpl.
  destruct ctxErr as [e|]; simpl; [reflexivity|].
  destruct (hasSeenExpectedOutputs c); reflexivity.
Qed.

(** C1, amended.  When no line has the unexpected pattern, the patterns
    that remain after the two consumers have been joined are the
    expected patterns that match none of the lines, in their order;
    the interleaving of the two streams plays no part. *)
Theorem remaining_after_run (opts : RunOptions) (x : execution) :
  existsb (unexpected_hit (UnexpectedOutput opts))
    (stdoutLines x ++ stderrLines x) = false ->
  expectedOutputs (checker (joined opts x)) =
    unmatched (stdoutLines x ++ stderrLines x) (ExpectedOutputs opts) /\
  forall x' : execution,
    stdoutLines x' = stdoutLines x ->
    stderrLines x' = stderrLines x ->
    expectedOutputs (checker (joined opts x')) =
    expectedOutputs (checker (joined opts x)).
Proof.
  intros Hno. rewrite existsb_app in Hno.
  apply orb_false_iff in Hno. destruct Hno as (Hout & Herr).
  split.
  - rewrite joined_expectedOutputs.
    now rewrite (admitted_all _ _ Hout), (admitted_all _ _ Herr).
  - intros x' Hout' Herr'. rewrite !joined_expectedOutputs.
    now rewrite Hout', Herr'.
Qed.

(** C5.  When the wait channel delivers, the consumers are joined; if
    the checker has then called its termination function and the error
    of the wait counts as termination by signal, [Run] returns and
    records no failure, whatever [ExpectError] says. *)
Theorem Run_terminated_early (opts : RunOptions) (x : execution)
    (waitErr : goerror) :
  choice x = WaitDelivered waitErr ->
  hasCalledTerminationFunc (checker (joined opts x)) = true ->
  IsTerminatedExitErr waitErr = true ->
  Run opts x = (Returned tt, joined opts x).
Proof.
  intros Hchoice Hcalled Hterm.
  now rewrite (Run_wait opts x waitErr Hchoice), Hcalled, Hterm.
Qed.

(** C4, amended.  When the wait channel delivers and some expected
    pattern matches no line, [Run] never returns: it fails in the
    assertion on the exit status when the status contradicts
    [ExpectError], and otherwise in its last assertion, on
    [hasSeenExpectedOutputs], which reports the remaining patterns. *)
Theorem Run_unmatched_pattern (opts : RunOptions) (x : execution)
    (waitErr : goerror) (p : Regexp) :
  choice x = WaitDelivered waitErr ->
  In p (ExpectedOutputs opts) ->
  existsb (MatchString p) (stdoutLines x ++ stderrLines x) = false ->
  Run opts x =
    (Goexit,
     record_failure
       match exit_status_failure (ExpectError opts) waitErr with
       | Some f => f
       | None => DidNotSee (map source
                   (expectedOutputs (checker (joined opts x))))
       end
       (joined opts x)) /\
  In p (expectedOutputs (checker (joined opts x))).
Proof.
  intros Hchoice Hin Hno.
  assert (Hp : In p (expectedOutputs (checker (joined opts x)))).
  { rewrite joined_expectedOutputs. apply In_unmatched. split; [exact Hin|].
    refine (existsb_false_incl _ _ _ _ Hno).
    apply incl_app; [apply incl_appl|apply incl_appr]; apply admitted_incl. }
  split; [|exact Hp].
  destruct (joined_settled opts x) as (Hcalled & Hseen).
  assert (Hs : hasSeenExpectedOutputs (checker (joined opts x)) = false).
  { destruct (hasSeenExpectedOutputs (checker (joined opts x)));
      [|reflexivity].
    rewrite (Hseen eq_refl) in Hp. destruct Hp. }
  assert (Hc : hasCalledTerminationFunc (checker (joined opts x)) = false).
  { destruct (hasCalledTerminationFunc (checker (joined opts x)));
      [|reflexivity].
    rewrite (Hcalled eq_refl) in Hs. discriminate Hs. }
  rewrite (Run_wait opts x waitErr Hchoice), Hc, Hs. simpl.
  now destruct (exit_status_failure (ExpectError opts) waitErr).
Qed.

(** ** Calls of the termination function *)

Lemma terminate_terminations (h : harness) :
  terminations (snd (terminate h)) = S (terminations h).
Proof.
  unfold terminate, bind, get, modify, require_NoError, FailNow, bind,
    modify, goexit. simpl.
  now destruct (TerminateProcessGroup (terminations h)).
Qed.

Lemma hasCalledTerminationFunc_stays (lines : list string) (st : state) :
  hasCalledTerminationFunc (checker st) = true ->
  hasCalledTerminationFunc (checker (checkOutputs lines st)) = true.
Proof.
  revert st. induction lines as [|line rest IH]; intros st H; simpl; auto.
  apply IH. now apply checkOutput_monotone.
Qed.

(** Once no pattern remains, every call whose line passes the check
    for unexpected output calls the termination function. *)
Lemma termination_repeats (lines : list string) (st : state) :
  termationFunc (checker st) = terminate ->
  terminateAfterExpectedOutput (checker st) = true ->
  expectedOutputs (checker st) = [] ->
  existsb (unexpected_hit (unexpectedOutput (checker st))) lines = false ->
  terminations (t (checkOutputs lines st)) =
    terminations (t st) + length lines /\
  hasCalledTerminationFunc (checker (checkOutputs lines st)) =
    hasCalledTerminationFunc (checker st) || negb (length lines =? 0)%nat.
Proof.
  revert st. induction lines as [|line rest IH];
    intros st Hf Hflag HE Hno; simpl.
  - split; [lia|now rewrite orb_false_r].
  - simpl in Hno. apply orb_false_iff in Hno. destruct Hno as (Hhit & Hno).
    assert (Hnil : filter (fun p => negb (MatchString p line))
                     (expectedOutputs (checker st)) = [])
      by now rewrite HE.
    rewrite (checkOutput_satisfied line st Hhit Hnil), Hflag. simpl snd.
    match goal with |- context [checkOutputs rest ?s] => set (st1 := s) end.
    destruct (IH st1) as (Hcount & Hcalled); auto.
    rewrite Hcount, Hcalled. subst st1. simpl.
    rewrite Hf, terminate_terminations.
    split; [lia|]. now rewrite orb_true_r.
Qed.

(** C2, amended.  [checkOutput] does not consult
    [hasCalledTerminationFunc].  In a run that terminates after the
    expected output, the call whose line leaves no pattern behind and
    every later call whose line passes the check for unexpected output
    each set the flag and call the termination function: [n] further
    lines make [n] further calls. *)
Theorem termination_not_guarded (line : string) (lines : list string)
    (st : state) :
  termationFunc (checker st) = terminate ->
  terminateAfterExpectedOutput (checker st) = true ->
  existsb (unexpected_hit (unexpectedOutput (checker st))) (line :: lines) =
    false ->
  unmatched [line] (expectedOutputs (checker st)) = [] ->
  terminations (t (checkOutputs (line :: lines) st)) =
    terminations (t st) + 1 + length lines /\
  hasCalledTerminationFunc (checker (checkOutputs (line :: lines) st)) = true.
Proof.
  intros Hf Hflag Hno Hnil.
  rewrite unmatched_cons, unmatched_nil_lines in Hnil.
  simpl in Hno. apply orb_false_iff in Hno. destruct Hno as (Hhit & Hno).
  simpl checkOutputs.
  rewrite (checkOutput_satisfied line st Hhit Hnil), Hflag. simpl snd.
  match goal with |- context [checkOutputs lines ?s] => set (st1 := s) end.
  destruct (termination_repeats lines st1) as (Hcount & Hcalled); auto.
  rewrite Hcount, Hcalled. subst st1. simpl.
  rewrite Hf, terminate_terminations. split; [lia|reflexivity].
Qed.

(** Without the flag the termination function is not called. *)
Lemma no_termination_without_flag (lines : list string) (st : state) :
  terminateAfterExpectedOutput (checker st) = false ->
  terminations (t (checkOutputs lines st)) = terminations (t st).
Proof.
  revert st. induction lines as [|line rest IH]; intros st Hflag; simpl; auto.
  destruct (checkOutput_configuration line st) as (_ & Hflag' & _).
  rewrite IH by congruence.
  check_cases line st; simpl; auto. now rewrite Hflag.
Qed.

(** ** Runs without output *)

Lemma close_terminations (s : stream) (st : state) :
  terminations (t (snd (consume s [] st))) = terminations (t st).
Proof.
  simpl. unfold on_harness, zoom, require_NoError, FailNow, bind, modify,
    goexit.
  now destruct (pipe_Close s).
Qed.

Lemma interleave_idle (sched : list stream) (kout kerr : consumer)
    (st : state) :
  (kout = Scanning [] \/ kout = Finished) ->
  (kerr = Scanning [] \/ kerr = Finished) ->
  let r := interleave sched kout kerr st in
  (fst (fst r) = Scanning [] \/ fst (fst r) = Finished) /\
  (snd (fst r) = Scanning [] \/ snd (fst r) = Finished) /\
  checker (snd r) = checker st.
Proof.
  revert kout kerr st.
  induction sched as [|[|] sched IH]; intros kout kerr st Hout Herr; simpl;
    auto.
  - destruct Hout as [-> | ->]; simpl.
    + fold (consume Stdout [] st).
      destruct (IH Finished kerr (snd (consume Stdout [] st)))
        as (H1 & H2 & H3); auto.
      now rewrite close_checker in H3.
    + apply IH; auto.
  - destruct Herr as [-> | ->]; simpl.
    + fold (consume Stderr [] st).
      destruct (IH kout Finished (snd (consume Stderr [] st)))
        as (H1 & H2 & H3); auto.
      now rewrite close_checker in H3.
    + apply IH; auto.
Qed.

Lemma finish_idle (s : stream) (k : consumer) (st : state) :
  (k = Scanning [] \/ k = Finished) ->
  checker (finish s k st) = checker st.
Proof.
  intros [-> | ->]; simpl; [|reflexivity].
  fold (consume s [] st). apply close_checker.
Qed.

Lemma no_output_checker (opts : RunOptions) (x : execution) :
  stdoutLines x = [] -> stderrLines x = [] ->
  checker (joined opts x) = newOutputChecker opts /\
  checker (unjoined opts x) = newOutputChecker opts.
Proof.
  intros Hout Herr. unfold joined, unjoined, running, routines_Wait.
  rewrite Hout, Herr.
  pose proof (interleave_idle (schedule x) (Scanning []) (Scanning [])
                (start opts)) as H.
  destruct (interleave _ _ _ _) as [[kout kerr] st]. simpl in *.
  destruct H as (H1 & H2 & H3); auto.
  now rewrite !finish_idle, H3.
Qed.

(** C10, amended.  Only [checkOutput] sets [hasSeenExpectedOutputs], so
    a run without output lines leaves the checker as [Run] has built
    it, the flag false; and [Run] then never returns, whatever the
    expected patterns, also when there are none: it fails in its last
    assertion whenever it gets there, and before that in the assertion
    on the exit status, or on the context, when that one fails. *)
Theorem Run_without_output (opts : RunOptions) (x : execution) :
  stdoutLines x = [] ->
  stderrLines x = [] ->
  checker (snd (Run opts x)) = newOutputChecker opts /\
  hasSeenExpectedOutputs (checker (snd (Run opts x))) = false /\
  fst (Run opts x) = Goexit /\
  exists earlier,
    failures (t (snd (Run opts x))) =
    earlier ++
    [match choice x with
     | WaitDelivered waitErr =>
         match exit_status_failure (ExpectError opts) waitErr with
         | Some f => f
         | None => DidNotSee (map source (ExpectedOutputs opts))
         end
     | ContextDone (Some e) => ContextFailed e
     | ContextDone None => DidNotSee (map source (ExpectedOutputs opts))
     end].
Proof.
  intros Hout Herr.
  destruct (no_output_checker opts x Hout Herr) as (Hj & Hu).
  destruct (choice x) as [waitErr|ctxErr] eqn:Hchoice.
  - rewrite (Run_wait opts x waitErr Hchoice), Hj. simpl.
    destruct (exit_status_failure (ExpectError opts) waitErr); simpl;
      rewrite Hj; repeat split; eauto.
  - rewrite (Run_context opts x ctxErr Hchoice), Hu.
    destruct ctxErr as [e|]; simpl; rewrite Hu; repeat split; eauto.
Qed.

End Runs.

(** ** Examples *)

(** One line can take more than one pattern. *)
Example one_line_two_patterns :
  expectedOutputs
    (checker (snd (checkOutput "READY and DONE"
       (start (X := fixtures.calm)
          (fixtures.options
             [fixtures.literal "READY"; fixtures.literal "DONE";
              fixtures.literal "FOUND"] None false false))))) =
  [fixtures.literal "FOUND"].
Proof. reflexivity. Qed.

Lemma remaining_after_run_witness :
  expectedOutputs
    (checker (joined (X := fixtures.calm) fixtures.oops_or_panic
                fixtures.oops_then_done)) = [].
Proof.
  destruct (remaining_after_run (X := fixtures.calm) fixtures.oops_or_panic
              fixtures.oops_then_done eq_refl) as [H _].
  rewrite H. reflexivity.
Defined.

(** C1 fails for a line that has the unexpected pattern: the line is
    not held against the expected patterns. *)
Lemma unexpected_line_takes_no_pattern :
  expectedOutputs
    (checker (joined (X := fixtures.calm) fixtures.oops_or_panic
                fixtures.panic_oops)) <>
  unmatched
    (stdoutLines fixtures.panic_oops ++ stderrLines fixtures.panic_oops)
    (ExpectedOutputs fixtures.oops_or_panic).
Proof. vm_compute. discriminate. Qed.

(** C2 fails: a line that follows the last expected one calls the
    termination function a second time. *)
Lemma termination_called_twice :
  ~ terminations
      (t (joined (X := fixtures.calm) fixtures.ready_done
            fixtures.ready_done_more)) <= 1.
Proof. vm_compute. lia. Qed.

Lemma termination_not_guarded_witness :
  terminations
    (t (checkOutputs ["DONE"; "INFO: still running"; "INFO: still running"]
          (snd (checkOutput "READY"
                  (start (X := fixtures.calm) fixtures.ready_done))))) = 3.
Proof.
  destruct (termination_not_guarded (X := fixtures.calm) "DONE"
              ["INFO: still running"; "INFO: still running"]
              (snd (checkOutput "READY"
                      (start (X := fixtures.calm) fixtures.ready_done)))
              eq_refl eq_refl eq_refl eq_refl) as [H _].
  rewrite H. reflexivity.
Defined.

Lemma Run_terminated_early_witness :
  Run (X := fixtures.calm) fixtures.ready_done fixtures.ready_done_more =
  (Returned tt,
   joined (X := fixtures.calm) fixtures.ready_done fixtures.ready_done_more).
Proof.
  apply (Run_terminated_early (X := fixtures.calm) fixtures.ready_done
           fixtures.ready_done_more (Some fixtures.terminated));
    reflexivity.
Defined.

Lemma Run_unmatched_pattern_witness :
  fst (Run (X := fixtures.calm) (fixtures.found false)
         (fixtures.not_found None)) = Goexit /\
  failures (t (snd (Run (X := fixtures.calm) (fixtures.found false)
                      (fixtures.not_found None)))) =
  [DidNotSee ["^FOUND$"]].
Proof.
  destruct (Run_unmatched_pattern (X := fixtures.calm) (fixtures.found false)
              (fixtures.not_found None) None (fixtures.whole_line "FOUND")
              eq_refl (or_introl eq_refl) eq_refl) as [H _].
  rewrite H. split; reflexivity.
Defined.

(** C4 fails when the exit status contradicts [ExpectError]: the run
    exits with status 0 although an error is expected, and [Run] fails
    before it looks at [hasSeenExpectedOutputs]. *)
Lemma unmatched_pattern_not_reported :
  ~ exists remaining,
      In (DidNotSee remaining)
         (failures (t (snd (Run (X := fixtures.calm) (fixtures.found true)
                             (fixtures.not_found None))))).
Proof.
  vm_compute. intros (remaining & [H|[]]). discriminate H.
Qed.

Lemma Run_without_output_witness :
  fst (Run (X := fixtures.calm) (fixtures.nothing_expected false)
         (fixtures.quiet None)) = Goexit /\
  failures (t (snd (Run (X := fixtures.calm) (fixtures.nothing_expected false)
                      (fixtures.quiet None)))) = [DidNotSee []].
Proof.
  destruct (Run_without_output (X := fixtures.calm)
              (fixtures.nothing_expected false) (fixtures.quiet None)
              eq_refl eq_refl) as (_ & _ & H & _).
  split; [exact H|reflexivity].
Defined.

(** C10 fails when the command exits with an error that is not
    expected: [Run] fails on the exit status and does not get to its
    last assertion. *)
Lemma last_assertion_not_reached :
  ~ exists remaining,
      In (DidNotSee remaining)
         (failures (t (snd (Run (X := fixtures.calm)
                             (fixtures.nothing_expected false)
                             (fixtures.quiet
                                (Some (Foreign "exit status 1"))))))).
Proof.
  vm_compute. intros (remaining & [H|[]]). discriminate H.
Qed.

Lemma checkOutput_unexpected_witness :
  checkOutput "PANIC: oops"
    (joined (X := fixtures.calm)
       (fixtures.options [fixtures.whole_line "READY"]
          (Some (fixtures.literal "PANIC")) false false)
       {| stdoutLines := ["READY"]; stderrLines := []; schedule := [];
          choice := WaitDelivered None |}) =
  (Goexit,
   {| checker :=
        {| lenExpectedOutputs := 1;
           expectedOutputs := [];
           unexpectedOutput := Some (fixtures.literal "PANIC");
           terminateAfterExpectedOutput := false;
           termationFunc := terminate (X := fixtures.calm);
           hasSeenExpectedOutputs := true;
           hasCalledTerminationFunc := false |};
      t := {| failures := [SeenUnexpectedOutput "PANIC" "PANIC: oops"];
              terminations := 0 |} |}).
Proof.
  apply (checkOutput_unexpected "PANIC: oops"
           (joined (X := fixtures.calm)
              (fixtures.options [fixtures.whole_line "READY"]
                 (Some (fixtures.literal "PANIC")) false false)
              {| stdoutLines := ["READY"]; stderrLines := []; schedule := [];
                 choice := WaitDelivered None |})
           (fixtures.literal "PANIC")); reflexivity.
Defined.

Lemma checker_monotone_witness :
  hasSeenExpectedOutputs
    (checker (checkOutputs ["INFO: still running"; "READY"]
                (joined (X := fixtures.calm) fixtures.ready_done
                   fixtures.ready_done_more))) = true.
Proof.
  apply (checker_monotone ["INFO: still running"; "READY"]
           (joined (X := fixtures.calm) fixtures.ready_done
              fixtures.ready_done_more)).
  reflexivity.
Defined.

End shared_facts.

(* ================================================================== *)
(** * Facts about the strings of the Go fragment *)
(* ================================================================== *)

Module strings_facts.
Import Golang.

Lemma strings_Split_nonempty (s : string) (sep : ascii) :
  strings_Split s sep <> [].
Proof.
  destruct s as [|c s]; simpl; [discriminate|].
  destruct (Ascii.eqb c sep); [discriminate|].
  destruct (strings_Split s sep); discriminate.
Qed.

Lemma strings_Split_free (s : string) (sep : ascii) :
  free_of sep s = true -> strings_Split s sep = [s].
Proof.
  unfold free_of. induction s as [|c s IH]; simpl; [reflexivity|].
  intros H. apply andb_true_iff in H. destruct H as (Hc & Hs).
  apply negb_true_iff in Hc. rewrite Hc, (IH Hs). reflexivity.
Qed.

Lemma strings_Split_app (l r : string) (sep : ascii) :
  free_of sep l = true ->
  strings_Split (l ++ String sep r) sep = l :: strings_Split r sep.
Proof.
  unfold free_of. induction l as [|c l IH]; simpl.
  - intros _. now rewrite Ascii.eqb_refl.
  - intros H. apply andb_true_iff in H. destruct H as (Hc & Hl).
    apply negb_true_iff in Hc. rewrite Hc, (IH Hl). reflexivity.
Qed.

(** Splitting undoes joining, when no element holds the separator. *)
Lemma strings_Split_Join (elems : list string) (sep : ascii) :
  elems <> [] ->
  forallb (free_of sep) elems = true ->
  strings_Split (strings_Join elems sep) sep = elems.
Proof.
  unfold strings_Join.
  induction elems as [|x xs IH]; [intros H; now elim H|].
  intros _ H. simpl in H. apply andb_true_iff in H. destruct H as (Hx & Hxs).
  destruct xs as [|y ys].
  - simpl. now apply strings_Split_free.
  - change (String.concat (String sep "") (x :: y :: ys))
      with (x ++ String sep (String.concat (String sep "") (y :: ys)))%string.
    rewrite (strings_Split_app _ _ _ Hx), IH; [reflexivity|discriminate|exact Hxs].
Qed.

Lemma all_chars_app (f : ascii -> bool) (s s' : string) :
  all_chars f (s ++ s') = all_chars f s && all_chars f s'.
Proof.
  induction s as [|c s IH]; simpl; [reflexivity|].
  now rewrite IH, andb_assoc.
Qed.

Lemma matchTemplate_self (template value : string) :
  matchTemplate template (template ++ value) = Some value.
Proof.
  induction template as [|c template IH]; simpl.
  - now destruct value.
  - rewrite Ascii.eqb_refl, orb_true_r. exact IH.
Qed.

Lemma firstMarker_Some (template : string) (lines groups : list string) :
  firstMarker template lines = Some groups ->
  exists l value, groups = [l; value] /\ In l lines /\
                  matchTemplate template l = Some value.
Proof.
  induction lines as [|l rest IH]; simpl; [discriminate|].
  destruct (matchTemplate template l) as [value|] eqn:E.
  - intros [= <-]. exists l, value. auto.
  - intros H. destruct (IH H) as (l' & value & ? & ? & ?).
    exists l', value. auto.
Qed.

(** The first line that starts with the marker is the match, whatever
    follows it. *)
Lemma firstMarker_found (template value : string)
    (before after : list string) :
  (forall l, In l before -> matchTemplate template l = None) ->
  firstMarker template (before ++ (template ++ value)%string :: after) =
  Some [(template ++ value)%string; value].
Proof.
  intros Hbefore. induction before as [|l rest IH]; simpl.
  - now rewrite matchTemplate_self.
  - rewrite (Hbefore l (or_introl eq_refl)). apply IH.
    intros l' Hin. apply Hbefore. now right.
Qed.

Lemma marker_found (template value : string) (before after : list string) :
  (forall l, In l before -> matchTemplate template l = None) ->
  forallb (free_of newline)
    (before ++ (template ++ value)%string :: after) = true ->
  marker_FindStringSubmatch template
    (strings_Join (before ++ (template ++ value)%string :: after) newline) =
  Some [(template ++ value)%string; value].
Proof.
  intros Hbefore Hfree. unfold marker_FindStringSubmatch.
  rewrite strings_Split_Join; [now apply firstMarker_found| |exact Hfree].
  now destruct before.
Qed.

Lemma dropPrefix_app (p s : string) : dropPrefix p (p ++ s) = Some s.
Proof.
  induction p as [|c p IH]; simpl.
  - now destruct s.
  - now rewrite Ascii.eqb_refl.
Qed.

Lemma dropPrefix_Some (p s rest : string) :
  dropPrefix p s = Some rest -> s = (p ++ rest)%string.
Proof.
  revert s. induction p as [|c p IH]; intros s; simpl.
  - now intros [= ->].
  - destruct s as [|d s]; [discriminate|].
    destruct (Ascii.eqb_spec c d) as [->|]; [|discriminate].
    intros H. now rewrite (IH s H).
Qed.

(** What [strings.TrimSpace] returns starts with no blank. *)
Lemma trimLeft_head (s : string) (c : ascii) (rest : string) :
  trimLeft s = String c rest -> isSpace c = false.
Proof.
  induction s as [|d s IH]; simpl; [discriminate|].
  destruct (isSpace d) eqn:E; [exact IH|].
  now intros [= <- _].
Qed.

Lemma trimRight_head (s : string) (c : ascii) (rest : string) :
  trimRight s = String c rest ->
  exists rest', s = String c rest'.
Proof.
  destruct s as [|d s]; simpl; [discriminate|].
  destruct (trimRight s).
  - destruct (isSpace d); [discriminate|]. intros [= <- _]. eauto.
  - intros [= <- _]. eauto.
Qed.

Lemma strings_TrimSpace_head (s : string) (c : ascii) (rest : string) :
  strings_TrimSpace s = String c rest -> isSpace c = false.
Proof.
  unfold strings_TrimSpace. intros H.
  destruct (trimRight_head _ _ _ H) as (rest' & H').
  exact (trimLeft_head _ _ _ H').
Qed.

End strings_facts.

(* ================================================================== *)
(** * More facts about package [gradle] *)
(* ================================================================== *)

Module gradle_more.
Import Golang gradle gradle_facts strings_facts.
Local Open Scope go_scope.

Section Facts.
Context `{P : Platform}.

(** ** The three queries, step by step *)

Lemma GradlePluginVersion_outcome (b : Builder) (s : store) :
  exists version err evs,
    fst (GradlePluginVersion b s) = Returned (version, err) /\
    events (snd (GradlePluginVersion b s)) = events s ++ evs /\
    (err = None -> spawned evs = [["cifuzzPrintPluginVersion"; "-q"]]).
Proof.
  unfold GradlePluginVersion, bind.
  destruct (buildGradleCommand_cases (ProjectDir b)
              ["cifuzzPrintPluginVersion"; "-q"] s)
    as [(g & s1 & -> & Hev)|(e & s1 & -> & Hev)]; simpl.
  - unfold emit, modify, Output, bind, call, emit, modify; simpl.
    destruct (exec_Output _ _) as [[output [e|]] w]; simpl;
      rewrite Hev, <- app_assoc; do 3 eexists;
      (split; [reflexivity|split; [reflexivity|]]);
      [discriminate|reflexivity].
  - exists "", (Some (errors_WithStack e)), [].
    rewrite app_nil_r. repeat split; [assumption|discriminate].
Qed.

Lemma getDependencies_outcome (b : Builder) (s : store) :
  exists evs,
    events (snd (getDependencies b s)) = events s ++ evs /\
    ((exists deps err,
        fst (getDependencies b s) = Returned (deps, err) /\
        (err = None ->
         deps <> [] /\
         spawned evs = [["cifuzzPrintTestClasspath"; "-q"]])) \/
     fst (getDependencies b s) = Panicked (IndexOutOfRange 1 0)).
Proof.
  unfold getDependencies, bind.
  destruct (buildGradleCommand_cases (ProjectDir b)
              ["cifuzzPrintTestClasspath"; "-q"] s)
    as [(g & s1 & -> & Hev)|(e & s1 & -> & Hev)]; simpl.
  - unfold emit, modify, Output, bind, call, emit, modify; simpl.
    destruct (exec_Output _ _) as [[output [e|]] w]; simpl.
    + rewrite Hev, <- app_assoc. eexists. split; [reflexivity|].
      left. do 2 eexists. split; [reflexivity|discriminate].
    + unfold classpathRegex, marker_FindStringSubmatch.
      destruct (firstMarker _ _) as [groups|] eqn:Hm; simpl.
      * destruct (firstMarker_Some _ _ _ Hm) as (l & value & -> & _).
        simpl. rewrite Hev, <- app_assoc. eexists. split; [reflexivity|].
        left. do 2 eexists. split; [reflexivity|].
        intros _. split; [apply strings_Split_nonempty|reflexivity].
      * rewrite Hev, <- app_assoc. eexists. split; [reflexivity|].
        now right.
  - exists []. rewrite app_nil_r. split; [assumption|].
    left. exists [], (Some e). split; [reflexivity|discriminate].
Qed.

Lemma GetBuildDirectory_outcome (projectDir : string) (s : store) :
  exists dir err evs,
    fst (GetBuildDirectory projectDir s) = Returned (dir, err) /\
    events (snd (GetBuildDirectory projectDir s)) = events s ++ evs /\
    (err <> None -> dir = "") /\
    (err = None ->
     spawned evs = [["cifuzzPrintBuildDir"; "-q"]] \/
     (spawned evs = [] /\ dir = "")).
Proof.
  unfold GetBuildDirectory, bind.
  destruct (buildGradleCommand_cases projectDir
              ["cifuzzPrintBuildDir"; "-q"] s)
    as [(g & s1 & -> & Hev)|(e & s1 & -> & Hev)]; simpl.
  - unfold emit, modify, Output, bind, call, emit, modify; simpl.
    destruct (exec_Output _ _) as [[output [e|]] w]; simpl.
    + rewrite Hev, <- app_assoc. do 3 eexists.
      split; [reflexivity|split; [reflexivity|]].
      split; [reflexivity|discriminate].
    + unfold buildDirRegex, marker_FindStringSubmatch.
      destruct (firstMarker _ _) as [groups|] eqn:Hm; simpl.
      * destruct (firstMarker_Some _ _ _ Hm) as (l & value & -> & _).
        simpl. rewrite Hev, <- app_assoc. do 3 eexists.
        split; [reflexivity|split; [reflexivity|]].
        split; [intros H; now elim H|]. intros _. now left.
      * rewrite Hev, <- app_assoc. do 3 eexists.
        split; [reflexivity|split; [reflexivity|]].
        split; [reflexivity|discriminate].
  - exists "", None, []. rewrite app_nil_r.
    repeat split; try assumption. intros _. now right.
Qed.

Lemma strings_Join_free (c sep : ascii) (elems : list string) :
  Ascii.eqb sep c = false ->
  forallb (free_of c) elems = true ->
  free_of c (strings_Join elems sep) = true.
Proof.
  intros Hsep. unfold strings_Join, free_of.
  induction elems as [|x xs IH]; [reflexivity|].
  intros H. simpl in H. apply andb_true_iff in H. destruct H as (Hx & Hxs).
  destruct xs as [|y ys]; [exact Hx|].
  change (String.concat (String sep "") (x :: y :: ys))
    with (x ++ String sep (String.concat (String sep "") (y :: ys)))%string.
  rewrite all_chars_app. cbn [all_chars]. rewrite Hsep. simpl negb.
  unfold free_of in Hx. rewrite Hx. simpl. apply IH. exact Hxs.
Qed.

(** ** Resolution of the gradle command *)


(** X2.  The wrapper script is preferred.  When the search for it
    ([gradlew.bat] on Windows, [gradlew] elsewhere) fails with an error
    other than "does not exist", that error is returned.  Otherwise a
    wrapper that was found is the command and the installed gradle is
    not looked for; without a wrapper the installed gradle is the
    command, and its absence the error. *)
Theorem GetGradleCommand_prefers_wrapper (projectDir wrapper : string)
    (err : goerror) (s : store) (w1 : World) :
  fileutil_SearchFileBackwards projectDir
    (if String.eqb runtime_GOOS "windows" then "gradlew.bat" else "gradlew")
    (world s) = ((wrapper, err), w1) ->
  GetGradleCommand projectDir s =
    match err with
    | Some e =>
        if errors_Is_ErrNotExist e
        then if String.eqb wrapper ""
             then let '((g, err'), w2) := runfiles_GradlePath w1 in
                  (Returned
                     match err' with
                     | Some e' => ("", Some (errors_WithStack e'))
                     | None => (g, None)
                     end,
                   {| world := w2; events := events s |})
             else (Returned (wrapper, None),
                   {| world := w1; events := events s |})
        else (Returned ("", Some e), {| world := w1; events := events s |})
    | None =>
        if String.eqb wrapper ""
        then let '((g, err'), w2) := runfiles_GradlePath w1 in
             (Returned
                match err' with
                | Some e' => ("", Some (errors_WithStack e'))
                | None => (g, None)
                end,
              {| world := w2; events := events s |})
        else (Returned (wrapper, None),
              {| world := w1; events := events s |})
    end.
Proof.
  intros Hsearch.
  unfold GetGradleCommand, FindGradleWrapper, bind, call. rewrite Hsearch.
  destruct err as [e|]; [destruct (errors_Is_ErrNotExist e)|]; simpl;
    try reflexivity;
    (destruct (String.eqb wrapper ""); simpl; [|reflexivity]);
    destruct (runfiles_GradlePath w1) as [[g [e'|]] w2]; reflexivity.
Qed.

(** ** The plugin version *)

(** X3.  [GradlePluginVersion] does not check for its marker: when the
    command runs, whatever it prints is a version.  The marker
    [cifuzz.plugin.version=] is cut off when the output starts with it,
    and otherwise the whole output is returned, without an error. *)
Theorem GradlePluginVersion_any_output (b : Builder) (s s1 : store)
    (cmd : Cmd) (output : string) (w2 : World) :
  buildGradleCommand (ProjectDir b) ["cifuzzPrintPluginVersion"; "-q"] s =
    (Returned (Some cmd, None), s1) ->
  exec_Output cmd (world s1) = ((output, None), w2) ->
  exists version,
    fst (GradlePluginVersion b s) = Returned (version, None) /\
    (output = ("cifuzz.plugin.version=" ++ version)%string \/
     (version = output /\
      dropPrefix "cifuzz.plugin.version=" output = None)).
Proof.
  intros Hcmd Hout.
  unfold GradlePluginVersion, bind. rewrite Hcmd. simpl.
  unfold Output, bind, call, emit, modify. simpl. rewrite Hout. simpl.
  eexists. split; [reflexivity|].
  unfold strings_TrimPrefix.
  destruct (dropPrefix "cifuzz.plugin.version=" output) as [rest|] eqn:E.
  - left. exact (dropPrefix_Some _ _ _ E).
  - right. auto.
Qed.

(** ** The classpath *)

(** X4.  Round trip of the classpath: when the output of the query has
    a line that consists of the marker and of paths joined by the
    separator of path lists, and no earlier line starts with the
    marker, [getDependencies] returns these paths, in their order.
    The other lines of the output play no part. *)
Theorem getDependencies_round_trip (b : Builder) (s s1 : store)
    (cmd : Cmd) (w2 : World) (before after paths : list string) :
  buildGradleCommand (ProjectDir b) ["cifuzzPrintTestClasspath"; "-q"] s =
    (Returned (Some cmd, None), s1) ->
  exec_Output cmd (world s1) =
    ((strings_Join
        (before ++
         ("cifuzz.test.classpath=" ++
          strings_Join paths os_PathListSeparator)%string :: after)
        newline, None), w2) ->
  (forall l, In l before ->
             matchTemplate "cifuzz.test.classpath=" l = None) ->
  forallb (free_of newline) (before ++ after) = true ->
  paths <> [] ->
  forallb (free_of os_PathListSeparator) paths = true ->
  forallb (free_of newline) paths = true ->
  Ascii.eqb os_PathListSeparator newline = false ->
  strings_TrimSpace (strings_Join paths os_PathListSeparator) =
    strings_Join paths os_PathListSeparator ->
  fst (getDependencies b s) = Returned (paths, None).
Proof.
  intros Hcmd Hout Hbefore Hlines Hne Hsep Hnl Hneq Htrim.
  remember (strings_Join paths os_PathListSeparator) as value eqn:Hvalue.
  remember (strings_Join _ newline) as output eqn:Houtput in Hout.
  assert (Hm : firstMarker "cifuzz.test.classpath="
                 (strings_Split output newline) =
               Some [("cifuzz.test.classpath=" ++ value)%string; value]).
  { rewrite Houtput. apply marker_found; [exact Hbefore|].
    rewrite forallb_app in *. apply andb_true_iff in Hlines.
    destruct Hlines as (H1 & H2). rewrite H1. cbn [forallb]. rewrite H2.
    unfold free_of at 1. rewrite all_chars_app.
    fold (free_of newline value).
    rewrite Hvalue, (strings_Join_free _ _ _ Hneq Hnl). reflexivity. }
  unfold getDependencies, bind. rewrite Hcmd. simpl.
  unfold Output, bind, call, emit, modify. simpl. rewrite Hout. simpl.
  unfold classpathRegex, marker_FindStringSubmatch. rewrite Hm. simpl.
  now rewrite Htrim, Hvalue, strings_Split_Join.
Qed.

(** X5.  A classpath that [getDependencies] returns without an error
    has at least one entry (the empty path, when the marker line ends
    after the marker). *)
Theorem getDependencies_never_empty (b : Builder) (s s' : store)
    (deps : list string) :
  getDependencies b s = (Returned (deps, None), s') ->
  deps <> [].
Proof.
  intros H.
  destruct (getDependencies_outcome b s)
    as (evs & _ & [(deps' & err & Hfst & Hok)|Hpanic]);
    rewrite H in *; simpl in *.
  - injection Hfst as <- <-. now apply Hok.
  - discriminate Hpanic.
Qed.

(** ** The build directory *)

(** X6.  [GetBuildDirectory] never panics: it returns a path and an
    error, and the path is empty whenever the error is not nil. *)
Theorem GetBuildDirectory_never_panics (projectDir : string) (s : store) :
  exists dir err,
    fst (GetBuildDirectory projectDir s) = Returned (dir, err) /\
    (err <> None -> dir = "").
Proof.
  destruct (GetBuildDirectory_outcome projectDir s)
    as (dir & err & evs & H & _ & Herr & _).
  exists dir, err. auto.
Qed.

(** X7.  Round trip of the build directory: when the output of the
    query has a line that consists of the marker and of a path, and no
    earlier line starts with the marker, [GetBuildDirectory] returns
    the path without the blanks around it. *)
Theorem GetBuildDirectory_round_trip (projectDir dir : string)
    (s s1 : store) (cmd : Cmd) (w2 : World) (before after : list string) :
  buildGradleCommand projectDir ["cifuzzPrintBuildDir"; "-q"] s =
    (Returned (Some cmd, None), s1) ->
  exec_Output cmd (world s1) =
    ((strings_Join
        (before ++ ("cifuzz.buildDir=" ++ dir)%string :: after)
        newline, None), w2) ->
  (forall l, In l before -> matchTemplate "cifuzz.buildDir=" l = None) ->
  forallb (free_of newline) (before ++ dir :: after) = true ->
  fst (GetBuildDirectory projectDir s) =
    Returned (strings_TrimSpace dir, None).
Proof.
  intros Hcmd Hout Hbefore Hlines.
  remember (strings_Join _ newline) as output eqn:Houtput in Hout.
  assert (Hm : firstMarker "cifuzz.buildDir="
                 (strings_Split output newline) =
               Some [("cifuzz.buildDir=" ++ dir)%string; dir]).
  { rewrite Houtput. apply marker_found; [exact Hbefore|].
    rewrite forallb_app in *. apply andb_true_iff in Hlines.
    destruct Hlines as (H1 & H2). rewrite H1. cbn [forallb] in *.
    apply andb_true_iff in H2. destruct H2 as (Hd & H2). rewrite H2.
    unfold free_of at 1. rewrite all_chars_app.
    unfold free_of in Hd. rewrite Hd. reflexivity. }
  unfold GetBuildDirectory, bind. rewrite Hcmd. simpl.
  unfold Output, bind, call, emit, modify. simpl. rewrite Hout. simpl.
  unfold buildDirRegex, marker_FindStringSubmatch. rewrite Hm. reflexivity.
Qed.

(** ** [Build] *)

Lemma spawned_app (evs evs' : list event) :
  spawned (evs ++ evs') = spawned evs ++ spawned evs'.
Proof. unfold spawned. apply flat_map_app. Qed.

Lemma Build_analysis (b : Builder) (targetClass : string) (s : store) :
  exists added,
    events (snd (Build b targetClass s)) = events s ++ added /\
    ((exists r,
        fst (Build b targetClass s) = Returned (Some r, None) /\
        build.Name r = targetClass /\
        build.ProjectDir r = ProjectDir b /\
        build.SeedCorpus r =
          cmdutils_JazzerSeedCorpus targetClass (ProjectDir b) /\
        build.GeneratedCorpus r =
          cmdutils_JazzerGeneratedCorpus targetClass (ProjectDir b) /\
        build.RuntimeDeps r <> [] /\
        (spawned added = [["cifuzzPrintPluginVersion"; "-q"];
                          ["cifuzzPrintTestClasspath"; "-q"];
                          ["cifuzzPrintBuildDir"; "-q"]] \/
         (spawned added = [["cifuzzPrintPluginVersion"; "-q"];
                           ["cifuzzPrintTestClasspath"; "-q"]] /\
          build.BuildDir r = ""))) \/
     (exists e, fst (Build b targetClass s) = Returned (None, Some e)) \/
     fst (Build b targetClass s) = Panicked (IndexOutOfRange 1 0)).
Proof.
  unfold Build, bind, call.
  destruct (config_DetermineGradleBuildLanguage _ _) as [[lang [e|]] w1];
    simpl.
  { exists []. rewrite app_nil_r. split; [reflexivity|]. right. left. eauto. }
  match goal with |- context [GradlePluginVersion b ?st] =>
    destruct (GradlePluginVersion_outcome b st)
      as (version & err1 & evs1 & Hf1 & He1 & Hs1);
    destruct (GradlePluginVersion b st) as [out1 s1] end.
  simpl in Hf1, He1. subst out1. destruct err1 as [e|]; simpl.
  { unfold emit, modify. simpl. rewrite He1, <- !app_assoc.
    eexists. split; [reflexivity|]. right. left. eauto. }
  unfold emit, modify. simpl.
  match goal with |- context [getDependencies b ?st] =>
    destruct (getDependencies_outcome b st)
      as (evs2 & He2 & [(deps & err2 & Hf2 & Hs2)|Hpanic]);
    destruct (getDependencies b st) as [out2 s2] end;
    simpl in Hf2 || simpl in Hpanic; simpl in He2; subst out2; simpl.
  2: { rewrite He2, He1, <- !app_assoc. eexists.
       split; [reflexivity|]. right. right. reflexivity. }
  destruct err2 as [e|]; simpl.
  { rewrite He2, He1, <- !app_assoc. eexists.
    split; [reflexivity|]. right. left. eauto. }
  destruct (Hs2 eq_refl) as (Hdeps & Hsp2).
  destruct (GetBuildDirectory_outcome (ProjectDir b) s2)
    as (dir & err3 & evs3 & Hf3 & He3 & _ & Hs3).
  destruct (GetBuildDirectory (ProjectDir b) s2) as [out3 s3].
  simpl in Hf3, He3. subst out3. destruct err3 as [e|]; simpl.
  { rewrite He3, He2, He1, <- !app_assoc. eexists.
    split; [reflexivity|]. right. left. eauto. }
  rewrite He3, He2, He1, <- !app_assoc. eexists. split; [reflexivity|].
  left. eexists. split; [reflexivity|]. simpl.
  repeat (split; [reflexivity || exact Hdeps|]).
  specialize (Hs1 eq_refl). specialize (Hs3 eq_refl).
  unfold spawned in *. rewrite flat_map_app, Hs1. cbn [flat_map app].
  rewrite flat_map_app, Hsp2. cbn [app].
  destruct Hs3 as [-> | (-> & ->)]; [left|right]; auto.
Qed.

(** X8.  A build that succeeds has spawned the query for the plugin
    version, then the query for the classpath, then the query for the
    build directory, and nothing else.  The last one is missing when
    the gradle command could not be resolved for it, and then the
    build directory of the result is empty. *)
Theorem Build_spawns (b : Builder) (targetClass : string) (s s' : store)
    (r : build.Result) :
  Build b targetClass s = (Returned (Some r, None), s') ->
  exists added,
    events s' = events s ++ added /\
    (spawned added = [["cifuzzPrintPluginVersion"; "-q"];
                      ["cifuzzPrintTestClasspath"; "-q"];
                      ["cifuzzPrintBuildDir"; "-q"]] \/
     (spawned added = [["cifuzzPrintPluginVersion"; "-q"];
                       ["cifuzzPrintTestClasspath"; "-q"]] /\
      build.BuildDir r = "")).
Proof.
  intros H.
  destruct (Build_analysis b targetClass s)
    as (added & Hev & [(r' & Hf & _ & _ & _ & _ & _ & Hsp)|[(e & Hf)|Hf]]);
    rewrite H in *; simpl in *; try discriminate Hf.
  injection Hf as <-. eauto.
Qed.

(** X9.  [Build] ends in one of three ways: with a result and no
    error, with an error and no result, or with the panic of an index
    out of range.  The result names the target and the project
    directory of the builder, its corpus directories are those of
    [cmdutils] for this target and directory, and its classpath is not
    empty. *)
Theorem Build_outcome (b : Builder) (targetClass : string) (s : store) :
  (exists r,
     fst (Build b targetClass s) = Returned (Some r, None) /\
     build.Name r = targetClass /\
     build.ProjectDir r = ProjectDir b /\
     build.SeedCorpus r =
       cmdutils_JazzerSeedCorpus targetClass (ProjectDir b) /\
     build.GeneratedCorpus r =
       cmdutils_JazzerGeneratedCorpus targetClass (ProjectDir b) /\
     build.RuntimeDeps r <> []) \/
  (exists e, fst (Build b targetClass s) = Returned (None, Some e)) \/
  fst (Build b targetClass s) = Panicked (IndexOutOfRange 1 0).
Proof.
  destruct (Build_analysis b targetClass s)
    as (added & _ & [(r & Hf & H1 & H2 & H3 & H4 & H5 & _)|[H|H]]);
    [left|right; left|right; right]; auto.
  exists r. repeat split; assumption.
Qed.

End Facts.

(** ** Construction of a builder *)

Section Construction.
Context `{P : Platform} `{F : @FileSystem P}.

(** X10.  [NewBuilder] returns either a builder and no error or an
    error and no builder, and it spawns and logs nothing.  The builder
    holds the options as they are, and its project directory is not
    empty; with an empty project directory [NewBuilder] fails before it
    looks at the file system. *)
Theorem NewBuilder_validates (opts : BuilderOptions) (s : store) :
  events (snd (NewBuilder opts s)) = events s /\
  ((fst (NewBuilder opts s) = Returned (Some opts, None) /\
    ProjectDir opts <> "") \/
   (exists e, fst (NewBuilder opts s) = Returned (None, Some e))) /\
  (ProjectDir opts = "" ->
   NewBuilder opts s =
   (Returned (None, Some (errors_New "ProjectDir is not set")), s)).
Proof.
  unfold NewBuilder, Validate, bind, call.
  destruct (String.eqb_spec (ProjectDir opts) "") as [Heq|Hne]; simpl.
  - repeat split; eauto.
  - destruct (os_Stat _ _) as [[e|] w]; simpl;
      (repeat split; [eauto|now intros H]).
Qed.

End Construction.

(** ** Examples *)

Lemma GetGradleCommand_prefers_wrapper_witness :
  GetGradleCommand "/p"
    (fixtures.fresh fixtures.with_wrapper fixtures.plugin_output) =
  (Returned ("/p/gradlew", None),
   fixtures.fresh fixtures.with_wrapper fixtures.plugin_output).
Proof.
  exact (GetGradleCommand_prefers_wrapper
           (P := fixtures.project fixtures.with_wrapper
                   fixtures.plugin_output)
           "/p" "/p/gradlew" None
           (fixtures.fresh fixtures.with_wrapper fixtures.plugin_output)
           tt eq_refl).
Defined.

Lemma GradlePluginVersion_any_output_witness :
  exists version,
    fst (GradlePluginVersion fixtures.the_builder
           (fixtures.fresh fixtures.with_wrapper fixtures.chatty_output)) =
    Returned (version, None) /\
    ("9.9.9" = ("cifuzz.plugin.version=" ++ version)%string \/
     (version = "9.9.9" /\
      dropPrefix "cifuzz.plugin.version=" "9.9.9" = None)).
Proof.
  exact (GradlePluginVersion_any_output
           (P := fixtures.project fixtures.with_wrapper
                   fixtures.chatty_output)
           fixtures.the_builder
           (fixtures.fresh fixtures.with_wrapper fixtures.chatty_output)
           (fixtures.fresh fixtures.with_wrapper fixtures.chatty_output)
           (fixtures.gradlew "cifuzzPrintPluginVersion") "9.9.9" tt
           eq_refl eq_refl).
Defined.

Lemma getDependencies_round_trip_witness :
  fst (getDependencies fixtures.the_builder
         (fixtures.fresh fixtures.with_wrapper fixtures.chatty_output)) =
  Returned (["/a"; "/b c"; "/d"], None).
Proof.
  apply (getDependencies_round_trip
           (P := fixtures.project fixtures.with_wrapper
                   fixtures.chatty_output)
           fixtures.the_builder
           (fixtures.fresh fixtures.with_wrapper fixtures.chatty_output)
           (fixtures.fresh fixtures.with_wrapper fixtures.chatty_output)
           (fixtures.gradlew "cifuzzPrintTestClasspath") tt
           ["Starting a Gradle Daemon"] ["cifuzz.test.classpath=/ignored"]
           ["/a"; "/b c"; "/d"]); try reflexivity.
  - intros l [<-|[]]. reflexivity.
  - discriminate.
Defined.

Lemma getDependencies_never_empty_witness : [""] <> ([] : list string).
Proof.
  exact (getDependencies_never_empty
           (P := fixtures.project fixtures.with_wrapper
                   fixtures.empty_classpath_output)
           fixtures.the_builder
           (fixtures.fresh fixtures.with_wrapper
              fixtures.empty_classpath_output)
           (snd (getDependencies fixtures.the_builder
                   (fixtures.fresh fixtures.with_wrapper
                      fixtures.empty_classpath_output)))
           [""] eq_refl).
Defined.

Lemma GetBuildDirectory_round_trip_witness :
  fst (GetBuildDirectory "/p"
         (fixtures.fresh fixtures.with_wrapper fixtures.chatty_output)) =
  Returned ("/out", None).
Proof.
  apply (GetBuildDirectory_round_trip
           (P := fixtures.project fixtures.with_wrapper
                   fixtures.chatty_output)
           "/p" " /out "
           (fixtures.fresh fixtures.with_wrapper fixtures.chatty_output)
           (fixtures.fresh fixtures.with_wrapper fixtures.chatty_output)
           (fixtures.gradlew "cifuzzPrintBuildDir") tt
           ["Starting a Gradle Daemon"] [""]); try reflexivity.
  intros l [<-|[]]. reflexivity.
Defined.

Lemma Build_spawns_witness :
  exists added,
    events (snd (Build fixtures.the_builder "com.example.FuzzTest"
                   (fixtures.fresh fixtures.with_wrapper
                      fixtures.plugin_output))) = [] ++ added /\
    (spawned added = [["cifuzzPrintPluginVersion"; "-q"];
                      ["cifuzzPrintTestClasspath"; "-q"];
                      ["cifuzzPrintBuildDir"; "-q"]] \/
     (spawned added = [["cifuzzPrintPluginVersion"; "-q"];
                       ["cifuzzPrintTestClasspath"; "-q"]] /\
      "/out" = "")).
Proof.
  exact (Build_spawns
           (P := fixtures.project fixtures.with_wrapper
                   fixtures.plugin_output)
           fixtures.the_builder "com.example.FuzzTest"
           (fixtures.fresh fixtures.with_wrapper fixtures.plugin_output)
           (snd (Build fixtures.the_builder "com.example.FuzzTest"
                   (fixtures.fresh fixtures.with_wrapper
                      fixtures.plugin_output)))
           {| build.Name := "com.example.FuzzTest";
              build.BuildDir := "/out";
              build.ProjectDir := "/p";
              build.GeneratedCorpus :=
                "/p/.cifuzz-corpus/com.example.FuzzTest";
              build.SeedCorpus :=
                "/p/src/test/resources/com.example.FuzzTestInputs";
              build.RuntimeDeps := ["/a"; "/b"] |}
           eq_refl).
Defined.

Lemma NewBuilder_validates_witness :
  NewBuilder (F := fixtures.only_p fixtures.with_wrapper
                     fixtures.plugin_output)
    {| ProjectDir := "";
       Parallel := {| Enabled := false; NumJobs := 0 |} |}
    (fixtures.fresh fixtures.with_wrapper fixtures.plugin_output) =
  (Returned (None, Some (errors_New "ProjectDir is not set")),
   fixtures.fresh fixtures.with_wrapper fixtures.plugin_output).
Proof.
  apply (NewBuilder_validates
           (F := fixtures.only_p fixtures.with_wrapper
                   fixtures.plugin_output)).
  reflexivity.
Defined.

End gradle_more.

(* ================================================================== *)
(** * More facts about package [shared] *)
(* ================================================================== *)

Module shared_more.
Import Golang shared shared_facts strings_facts.
Local Open Scope go_scope.

(** ** The filters for instructions *)

Lemma FilterForInstructions_loop (lines acc : list string) :
  fold_left
    (fun linesToAdd line =>
       if strings_HasPrefix line "    "
       then linesToAdd ++ [strings_TrimSpace line]
       else linesToAdd)
    lines acc =
  acc ++ map strings_TrimSpace (filter indented lines).
Proof.
  revert acc. induction lines as [|line rest IH]; intros acc; simpl.
  - now rewrite app_nil_r.
  - rewrite IH. unfold indented.
    destruct (strings_HasPrefix line "    "); [|reflexivity].
    simpl. now rewrite <- app_assoc.
Qed.

Lemma indented_head (c : ascii) (rest : string) :
  indented (String c rest) = true -> isSpace c = true.
Proof.
  unfold indented, strings_HasPrefix. cbn [String.prefix].
  destruct (ascii_dec " " c) as [<-|]; intros H; [reflexivity|discriminate].
Qed.

Lemma trimmed_not_indented (line : string) :
  indented (strings_TrimSpace line) = false.
Proof.
  destruct (strings_TrimSpace line) as [|c rest] eqn:E; [reflexivity|].
  destruct (indented (String c rest)) eqn:Hi; [|reflexivity].
  apply indented_head in Hi.
  now rewrite (strings_TrimSpace_head _ _ _ E) in Hi.
Qed.

(** X11.  [FilterForInstructions] returns, in their order, the lines
    that start with four blanks, each without the blanks at its two
    ends; the other lines leave no trace. *)
Theorem FilterForInstructions_trimmed (lines : list string) :
  FilterForInstructions lines =
  map strings_TrimSpace (filter indented lines).
Proof. apply (FilterForInstructions_loop lines []). Qed.

(** X12.  No line that [FilterForInstructions] returns is indented:
    the filter applied to its own result returns nothing. *)
Theorem FilterForInstructions_twice (lines : list string) :
  forallb (fun line => negb (indented line)) (FilterForInstructions lines) =
    true /\
  FilterForInstructions (FilterForInstructions lines) = [].
Proof.
  unfold FilterForInstructions. rewrite !FilterForInstructions_loop. simpl.
  induction (filter indented lines) as [|line rest [IH1 IH2]]; simpl;
    [auto|].
  rewrite trimmed_not_indented. simpl. auto.
Qed.

(** The loop of [FilterForInstructionBlocks], from any point on. *)
Lemma blocks_loop_indented (v : blocks_loop) (tail : list string) :
  forallb indented tail = true ->
  blocks (fold_left blocks_step tail v) = blocks v.
Proof.
  revert v. induction tail as [|line rest IH]; intros v H; simpl;
    [reflexivity|].
  simpl in H. apply andb_true_iff in H. destruct H as (Hline & Hrest).
  rewrite (IH _ Hrest). unfold blocks_step.
  unfold indented in Hline. now rewrite Hline.
Qed.

(** X13.  [FilterForInstructionBlocks] reports a block only when a line
    without the indentation follows it: indented lines at the end of
    the input are dropped, and an input of indented lines alone gives
    no block. *)
Theorem FilterForInstructionBlocks_drops_last (lines tail : list string) :
  forallb indented tail = true ->
  FilterForInstructionBlocks (lines ++ tail) =
    FilterForInstructionBlocks lines /\
  FilterForInstructionBlocks tail = [].
Proof.
  intros H. unfold FilterForInstructionBlocks. split.
  - rewrite fold_left_app. now apply blocks_loop_indented.
  - now rewrite blocks_loop_indented.
Qed.

Lemma blocks_loop_concat (v : blocks_loop) (lines : list string)
    (last : string) :
  (inBlock v = false -> currBlock v = []) ->
  indented last = false ->
  concat (blocks (fold_left blocks_step (lines ++ [last]) v)) =
  concat (blocks v) ++ currBlock v ++ filter indented lines.
Proof.
  intros Hv Hlast. revert v Hv.
  induction lines as [|line rest IH]; intros v Hv; simpl.
  - unfold blocks_step. unfold indented in Hlast. rewrite Hlast.
    destruct (inBlock v) eqn:Hin; simpl.
    + rewrite concat_app. simpl. now rewrite !app_nil_r.
    + rewrite (Hv eq_refl). simpl. now rewrite app_nil_r.
  - assert (Hline : strings_HasPrefix line "    " = indented line)
      by reflexivity.
    destruct (indented line).
    + rewrite IH.
      * unfold blocks_step. rewrite Hline. simpl.
        rewrite <- app_assoc. reflexivity.
      * unfold blocks_step. rewrite Hline. simpl. discriminate.
    + destruct (inBlock v) eqn:Hin.
      * rewrite IH.
        -- unfold blocks_step. rewrite Hline, Hin. simpl.
           rewrite concat_app. simpl. rewrite app_nil_r, <- app_assoc.
           reflexivity.
        -- unfold blocks_step. now rewrite Hline, Hin.
      * rewrite IH.
        -- unfold blocks_step. now rewrite Hline, Hin.
        -- unfold blocks_step. rewrite Hline, Hin. simpl. auto.
Qed.

Lemma blocks_loop_wellformed (v : blocks_loop) (lines : list string) :
  (inBlock v = true -> currBlock v <> []) ->
  forallb indented (currBlock v) = true ->
  Forall (fun b => b <> [] /\ forallb indented b = true) (blocks v) ->
  Forall (fun b => b <> [] /\ forallb indented b = true)
    (blocks (fold_left blocks_step lines v)).
Proof.
  revert v. induction lines as [|line rest IH]; intros v Hin Hcurr Hb; simpl;
    [exact Hb|].
  apply IH; unfold blocks_step;
    destruct (indented line) eqn:Hline; unfold indented in Hline;
    rewrite Hline; simpl.
  - intros _. now destruct (currBlock v).
  - destruct (inBlock v); simpl; [discriminate|exact Hin].
  - rewrite forallb_app, Hcurr. simpl. unfold indented. now rewrite Hline.
  - now destruct (inBlock v).
  - exact Hb.
  - destruct (inBlock v) eqn:E; [|exact Hb].
    apply Forall_app. split; [exact Hb|]. constructor; auto.
Qed.

(** X14.  Every block that [FilterForInstructionBlocks] returns is a
    non-empty run of indented lines, as they were in the input; and
    when the input ends with a line that is not indented, the blocks
    hold, in their order, all indented lines of the input. *)
Theorem FilterForInstructionBlocks_blocks (lines : list string)
    (last : string) :
  Forall (fun b => b <> [] /\ forallb indented b = true)
    (FilterForInstructionBlocks lines) /\
  (indented last = false ->
   concat (FilterForInstructionBlocks (lines ++ [last])) =
   filter indented lines).
Proof.
  unfold FilterForInstructionBlocks. split.
  - apply blocks_loop_wellformed; simpl; auto. discriminate.
  - intros Hlast. now rewrite blocks_loop_concat.
Qed.

(** X15.  The two filters agree on an input that ends with a line that
    is not indented: the lines of the blocks, without the blanks at
    their ends, are the instructions. *)
Theorem filters_agree (lines : list string) (last : string) :
  indented last = false ->
  map strings_TrimSpace
    (concat (FilterForInstructionBlocks (lines ++ [last]))) =
  FilterForInstructions (lines ++ [last]).
Proof.
  intros Hlast. unfold FilterForInstructions.
  rewrite FilterForInstructions_loop. simpl.
  unfold FilterForInstructionBlocks.
  rewrite blocks_loop_concat by (auto; discriminate). simpl.
  rewrite filter_app. simpl. rewrite Hlast. now rewrite app_nil_r.
Qed.

(** ** When the expected output counts as seen *)

Lemma seen_after_nil (c : outputChecker) :
  seen_after [] c = hasSeenExpectedOutputs c.
Proof. unfold seen_after. simpl. apply orb_false_r. Qed.

Lemma seen_after_seen (lines : list string) (c : outputChecker) :
  hasSeenExpectedOutputs c = true -> seen_after lines c = true.
Proof. unfold seen_after. now intros ->. Qed.

Lemma seen_after_comm (lines lines' : list string) (c : outputChecker) :
  seen_after (lines ++ lines') c = seen_after (lines' ++ lines) c.
Proof.
  unfold seen_after.
  rewrite !unmatched_app, (unmatched_swap lines'), !length_app.
  now rewrite (Nat.add_comm (length lines)).
Qed.

Lemma checkOutput_seen_after (line : string) (st : state)
    (more : list string) :
  unexpected_hit (unexpectedOutput (checker st)) line = false ->
  seen_after more (checker (snd (checkOutput line st))) =
    seen_after (line :: more) (checker st) /\
  (fst (checkOutput line st) <> Returned tt ->
   hasSeenExpectedOutputs (checker (snd (checkOutput line st))) = true).
Proof.
  intros Hno. unfold seen_after. rewrite unmatched_cons.
  check_cases line st; [discriminate| |].
  - split.
    + destruct (terminateAfterExpectedOutput (checker st)); simpl;
        now rewrite orb_true_r.
    + now destruct (terminateAfterExpectedOutput (checker st)).
  - split; [|intros H; now elim H]. simpl.
    destruct more as [|more0 more']; [|reflexivity].
    now rewrite unmatched_nil_lines.
Qed.

Section Runs.
Context `{X : Process}.

Lemma consume_seen_after (s : stream) (lines more : list string)
    (st : state) :
  seen_after more (checker (snd (consume s lines st))) =
  seen_after (admitted (unexpectedOutput (checker st)) lines ++ more)
    (checker st).
Proof.
  revert st. induction lines as [|line rest IH]; intros st.
  - now rewrite close_checker.
  - simpl consume. unfold bind. cbn [admitted].
    destruct (unexpected_hit (unexpectedOutput (checker st)) line) eqn:Hhit.
    + destruct (checkOutput_hit line st Hhit) as (u & _ & ->). reflexivity.
    + destruct (checkOutput_seen_after line st
                  (admitted (unexpectedOutput (checker st)) rest ++ more)
                  Hhit) as (Hstep & Hleft).
      destruct (checkOutput_configuration line st) as (Hu & _).
      simpl app. rewrite <- Hstep.
      destruct (checkOutput line st) as [[[]| |] st1]; simpl in *.
      * now rewrite IH, Hu.
      * rewrite !seen_after_seen; auto; apply Hleft; discriminate.
      * rewrite !seen_after_seen; auto; apply Hleft; discriminate.
Qed.

Lemma consumer_step_seen_after (s : stream) (k k' : consumer)
    (st st' : state) (more : list string) :
  consumer_step s k st = (k', st') ->
  seen_after (pending_of (unexpectedOutput (checker st)) k' ++ more)
    (checker st') =
  seen_after (pending_of (unexpectedOutput (checker st)) k ++ more)
    (checker st).
Proof.
  destruct k as [[|line rest]|]; simpl.
  - intros [= <- <-]. simpl. fold (consume s [] st).
    now rewrite close_checker.
  - destruct (unexpected_hit (unexpectedOutput (checker st)) line) eqn:Hhit.
    + destruct (checkOutput_hit line st Hhit) as (u & _ & ->).
      now intros [= <- <-].
    + destruct (checkOutput_seen_after line st
                  (admitted (unexpectedOutput (checker st)) rest ++ more)
                  Hhit) as (Hstep & Hleft).
      simpl app. rewrite <- Hstep.
      destruct (checkOutput line st) as [[[]| |] st1]; simpl in *;
        intros [= <- <-]; simpl; [reflexivity| |];
        rewrite !seen_after_seen; auto; apply Hleft; discriminate.
  - now intros [= <- <-].
Qed.

Lemma interleave_seen_after (sched : list stream) (kout kerr : consumer)
    (st : state) :
  let '(kout', kerr', st') := interleave sched kout kerr st in
  seen_after
    (pending_of (unexpectedOutput (checker st)) kout' ++
     pending_of (unexpectedOutput (checker st)) kerr') (checker st') =
  seen_after
    (pending_of (unexpectedOutput (checker st)) kout ++
     pending_of (unexpectedOutput (checker st)) kerr) (checker st).
Proof.
  revert kout kerr st.
  induction sched as [|[|] sched IH]; intros kout kerr st; simpl; auto.
  - destruct (consumer_step Stdout kout st) as [k st1] eqn:Hstep.
    destruct (consumer_step_unmatched _ _ _ _ _ Hstep) as (Hu & _).
    specialize (IH k kerr st1).
    destruct (interleave sched k kerr st1) as [[kout' kerr'] st'].
    rewrite Hu in IH. rewrite IH.
    exact (consumer_step_seen_after _ _ _ _ _ _ Hstep).
  - destruct (consumer_step Stderr kerr st) as [k st1] eqn:Hstep.
    destruct (consumer_step_unmatched _ _ _ _ _ Hstep) as (Hu & _).
    specialize (IH kout k st1).
    destruct (interleave sched kout k st1) as [[kout' kerr'] st'].
    rewrite Hu in IH. rewrite IH.
    rewrite seen_after_comm,
      (consumer_step_seen_after _ _ _ _ _ _ Hstep).
    apply seen_after_comm.
Qed.

Lemma finish_seen_after (s : stream) (k : consumer) (st : state)
    (more : list string) :
  seen_after more (checker (finish s k st)) =
  seen_after (pending_of (unexpectedOutput (checker st)) k ++ more)
    (checker st).
Proof.
  destruct k as [pending|]; simpl; [apply consume_seen_after|reflexivity].
Qed.

Lemma joined_seen_after (opts : RunOptions) (x : execution) :
  hasSeenExpectedOutputs (checker (joined opts x)) =
  seen_after
    (admitted (UnexpectedOutput opts) (stdoutLines x) ++
     admitted (UnexpectedOutput opts) (stderrLines x))
    (newOutputChecker opts).
Proof.
  unfold joined, running, routines_Wait.
  pose proof (interleave_seen_after (schedule x) (Scanning (stdoutLines x))
                (Scanning (stderrLines x)) (start opts)) as H.
  pose proof (interleave_unmatched (schedule x) (Scanning (stdoutLines x))
                (Scanning (stderrLines x)) (start opts)) as Hu.
  destruct (interleave _ _ _ _) as [[kout kerr] st]. simpl in *.
  destruct Hu as (Hu & _).
  destruct (finish_unmatched Stdout kout st) as (Hu1 & _).
  rewrite <- seen_after_nil, finish_seen_after, finish_seen_after.
  now rewrite Hu1, Hu, app_nil_r, <- H.
Qed.

(** X16.  Whether [hasSeenExpectedOutputs] is true after the join does
    not depend on the interleaving: it is true exactly when some line
    comes, in its stream, before the first line with the unexpected
    pattern, and every expected pattern matches such a line. *)
Theorem seen_after_run (opts : RunOptions) (x : execution) :
  let lines :=
    admitted (UnexpectedOutput opts) (stdoutLines x) ++
    admitted (UnexpectedOutput opts) (stderrLines x) in
  hasSeenExpectedOutputs (checker (joined opts x)) =
  negb (length lines =? 0)%nat &&
  (length (unmatched lines (ExpectedOutputs opts)) =? 0)%nat.
Proof. simpl. now rewrite joined_seen_after. Qed.

(** X17.  [Run] returns only when the expected output has been seen:
    whichever branch its [select] takes, if [Run] returns then
    [hasSeenExpectedOutputs] is true and no pattern remains. *)
Theorem Run_returns_only_if_seen (opts : RunOptions) (x : execution)
    (st : state) :
  Run opts x = (Returned tt, st) ->
  hasSeenExpectedOutputs (checker st) = true /\
  expectedOutputs (checker st) = [].
Proof.
  assert (Hsettled : settled (checker (joined opts x)) /\
                     settled (checker (unjoined opts x))).
  { apply (run_preserves settled); [exact checkOutput_settled|].
    split; simpl; discriminate. }
  destruct Hsettled as ((Hc & Hs) & (_ & Hs')).
  destruct (choice x) as [waitErr|ctxErr] eqn:Hchoice.
  - rewrite (Run_wait opts x waitErr Hchoice).
    destruct (hasCalledTerminationFunc (checker (joined opts x))) eqn:Hcalled;
      simpl.
    + destruct (IsTerminatedExitErr waitErr).
      * intros [= <-]. auto.
      * destruct (exit_status_failure (ExpectError opts) waitErr);
          [discriminate|].
        rewrite (Hc eq_refl). intros [= <-]. auto.
    + destruct (exit_status_failure (ExpectError opts) waitErr);
        [discriminate|].
      destruct (hasSeenExpectedOutputs (checker (joined opts x))) eqn:Hseen;
        [|discriminate].
      intros [= <-]. auto.
  - rewrite (Run_context opts x ctxErr Hchoice).
    destruct ctxErr as [e|]; [discriminate|].
    destruct (hasSeenExpectedOutputs (checker (unjoined opts x))) eqn:Hseen;
      [|discriminate].
    intros [= <-]. auto.
Qed.

(** ** Invariants of the whole state along a run *)

Lemma consume_keeps (I : state -> Prop) (ok : string -> bool) :
  (forall line st, ok line = true -> I st ->
                   I (snd (checkOutput line st))) ->
  (forall s st, I st -> I (snd (consume s [] st))) ->
  forall s lines st,
    forallb ok lines = true -> I st -> I (snd (consume s lines st)).
Proof.
  intros Hcheck Hclose s lines.
  induction lines as [|line rest IH]; intros st Hok HI; [now apply Hclose|].
  simpl in Hok. apply andb_true_iff in Hok. destruct Hok as (Hline & Hrest).
  simpl consume. unfold bind. specialize (Hcheck line st Hline HI).
  destruct (checkOutput line st) as [[a| |] st1]; simpl in *; auto.
Qed.

Lemma interleave_keeps (I : state -> Prop) (ok : string -> bool) :
  (forall line st, ok line = true -> I st ->
                   I (snd (checkOutput line st))) ->
  (forall s st, I st -> I (snd (consume s [] st))) ->
  forall sched kout kerr st,
    forallb ok (match kout with Scanning l => l | Finished => [] end) = true ->
    forallb ok (match kerr with Scanning l => l | Finished => [] end) = true ->
    I st ->
    let r := interleave sched kout kerr st in
    forallb ok (match fst (fst r) with Scanning l => l | Finished => [] end)
      = true /\
    forallb ok (match snd (fst r) with Scanning l => l | Finished => [] end)
      = true /\
    I (snd r).
Proof.
  intros Hcheck Hclose sched.
  assert (Hstep : forall s k st,
    forallb ok (match k with Scanning l => l | Finished => [] end) = true ->
    I st ->
    forallb ok (match fst (consumer_step s k st) with
                | Scanning l => l | Finished => [] end) = true /\
    I (snd (consumer_step s k st))).
  { intros s [[|line rest]|] st Hok HI; simpl; auto.
    - split; [reflexivity|]. now apply (Hclose s).
    - simpl in Hok. apply andb_true_iff in Hok.
      destruct Hok as (Hline & Hrest).
      specialize (Hcheck line st Hline HI).
      destruct (checkOutput line st) as [[a| |] st1]; simpl in *; auto. }
  induction sched as [|[|] sched IH]; intros kout kerr st Hout Herr HI; simpl;
    auto.
  - destruct (Hstep Stdout kout st Hout HI) as (Hk & HI').
    destruct (consumer_step Stdout kout st) as [k st1]. now apply IH.
  - destruct (Hstep Stderr kerr st Herr HI) as (Hk & HI').
    destruct (consumer_step Stderr kerr st) as [k st1]. now apply IH.
Qed.

Lemma run_keeps (I : state -> Prop) (ok : string -> bool) :
  (forall line st, ok line = true -> I st ->
                   I (snd (checkOutput line st))) ->
  (forall s st, I st -> I (snd (consume s [] st))) ->
  forall opts x,
    forallb ok (stdoutLines x) = true ->
    forallb ok (stderrLines x) = true ->
    I (start opts) ->
    I (joined opts x) /\ I (unjoined opts x).
Proof.
  intros Hcheck Hclose opts x Hout Herr HI.
  pose proof (interleave_keeps I ok Hcheck Hclose (schedule x)
                (Scanning (stdoutLines x)) (Scanning (stderrLines x))
                (start opts) Hout Herr HI) as H.
  unfold joined, unjoined, running, routines_Wait.
  destruct (interleave _ _ _ _) as [[kout kerr] st]. simpl in *.
  destruct H as (Hkout & Hkerr & Hst). split; [|exact Hst].
  assert (Hfin : forall s k st0,
    forallb ok (match k with Scanning l => l | Finished => [] end) = true ->
    I st0 -> I (finish s k st0)).
  { intros s [pending|] st0 Hok H0; simpl; auto.
    now apply (consume_keeps I ok). }
  auto.
Qed.

Lemma close_state (s : stream) (st : state) :
  checker (snd (consume s [] st)) = checker st /\
  terminations (t (snd (consume s [] st))) = terminations (t st) /\
  (pipe_Close s = None -> snd (consume s [] st) = st).
Proof.
  split; [apply close_checker|]. split; [apply close_terminations|].
  simpl. unfold on_harness, zoom, require_NoError. intros ->. simpl.
  now destruct st.
Qed.

Lemma terminate_calm (h : harness) :
  TerminateProcessGroup (terminations h) = None ->
  terminate h =
    (Returned tt,
     {| failures := failures h; terminations := S (terminations h) |}).
Proof.
  intros H. unfold terminate, bind, get, modify, require_NoError. simpl.
  now rewrite H.
Qed.



(** X19.  A run succeeds when nothing goes wrong: if the termination
    of the process and the closing of the pipes do not fail, the wait
    channel delivers, no line has the unexpected pattern, there is a
    line, every expected pattern matches some line, and the exit
    status is the expected one (or the run terminates after the
    expected output and the status is that of the termination), then
    [Run] returns and the test has recorded no failure. *)
Theorem Run_succeeds (opts : RunOptions) (x : execution)
    (waitErr : goerror) :
  (forall n, TerminateProcessGroup n = None) ->
  (forall s, pipe_Close s = None) ->
  choice x = WaitDelivered waitErr ->
  existsb (unexpected_hit (UnexpectedOutput opts))
    (stdoutLines x ++ stderrLines x) = false ->
  stdoutLines x ++ stderrLines x <> [] ->
  unmatched (stdoutLines x ++ stderrLines x) (ExpectedOutputs opts) = [] ->
  exit_status_failure (ExpectError opts) waitErr = None \/
  (TerminateAfterExpectedOutput opts = true /\
   IsTerminatedExitErr waitErr = true) ->
  fst (Run opts x) = Returned tt /\
  failures (t (snd (Run opts x))) = [].
Proof.
  intros Hterm Hclose Hchoice Hno Hlines Hall Hstatus.
  rewrite existsb_app in Hno. apply orb_false_iff in Hno.
  destruct Hno as (Hout & Herr).
  assert (Hseen : hasSeenExpectedOutputs (checker (joined opts x)) = true).
  { rewrite joined_seen_after, (admitted_all _ _ Hout),
      (admitted_all _ _ Herr).
    unfold seen_after. simpl expectedOutputs. rewrite Hall. simpl.
    destruct (stdoutLines x ++ stderrLines x); [now elim Hlines|reflexivity]. }
  assert (Hcalled : hasCalledTerminationFunc (checker (joined opts x)) =
                    TerminateAfterExpectedOutput opts).
  { destruct (run_preserves
                (fun c => terminateAfterExpectedOutput c =
                            TerminateAfterExpectedOutput opts /\
                          hasCalledTerminationFunc c =
                            terminateAfterExpectedOutput c &&
                            hasSeenExpectedOutputs c)) with
      (opts := opts) (x := x) as ((Hflag & Hc) & _).
    - intros line st (Hflag & Hc).
      destruct (checkOutput_configuration line st) as (_ & Hflag' & _).
      split; [congruence|]. rewrite Hflag'. clear Hflag'.
      check_cases line st; simpl; auto.
      destruct (terminateAfterExpectedOutput (checker st)) eqn:E; simpl;
        [reflexivity|].
      exact Hc.
    - split; [reflexivity|]. simpl. now rewrite andb_false_r.
    - now rewrite Hc, Hflag, Hseen, andb_true_r. }
  assert (Hclean : failures (t (joined opts x)) = []).
  { destruct (run_keeps
                (fun st => failures (t st) = [] /\
                           termationFunc (checker st) = terminate /\
                           unexpectedOutput (checker st) =
                             UnexpectedOutput opts)
                (fun line =>
                   negb (unexpected_hit (UnexpectedOutput opts) line)))
      with (opts := opts) (x := x) as ((H & _) & _); [| | | | |exact H].
    - intros line st Hline (Hfail & Hf & Hu).
      apply negb_true_iff in Hline.
      destruct (checkOutput_configuration line st) as (Hu' & _ & Hf' & _).
      split; [|split; congruence]. clear Hu' Hf'.
      rewrite <- Hu in Hline.
      destruct (filter (fun p => negb (MatchString p line))
                  (expectedOutputs (checker st))) eqn:HE.
      + rewrite (checkOutput_satisfied line st Hline HE).
        destruct (terminateAfterExpectedOutput (checker st)); simpl; auto.
        now rewrite Hf, terminate_calm.
      + rewrite (checkOutput_remaining line st Hline);
          [assumption|rewrite HE; discriminate].
    - intros s st H. destruct (close_state s st) as (_ & _ & ->); auto.
    - clear -Hout. induction (stdoutLines x) as [|l ls IH]; simpl in *; auto.
      apply orb_false_iff in Hout. destruct Hout as (-> & Hls). auto.
    - clear -Herr. induction (stderrLines x) as [|l ls IH]; simpl in *; auto.
      apply orb_false_iff in Herr. destruct Herr as (-> & Hls). auto.
    - repeat split. }
  rewrite (Run_wait opts x waitErr Hchoice), Hcalled, Hseen.
  destruct Hstatus as [Hexit | (Hflag & Hsig)].
  - rewrite Hexit.
    destruct (TerminateAfterExpectedOutput opts && IsTerminatedExitErr waitErr);
      auto.
  - rewrite Hflag, Hsig. auto.
Qed.

End Runs.

Lemma FilterForInstructionBlocks_drops_last_witness :
  FilterForInstructionBlocks
    (["Add to build.gradle:"] ++ ["    plugins {"; "    }"]) =
    FilterForInstructionBlocks ["Add to build.gradle:"] /\
  FilterForInstructionBlocks ["    plugins {"; "    }"] = [].
Proof.
  exact (FilterForInstructionBlocks_drops_last ["Add to build.gradle:"]
           ["    plugins {"; "    }"] eq_refl).
Defined.

Lemma FilterForInstructionBlocks_blocks_witness :
  concat (FilterForInstructionBlocks (fixtures.advice ++ [""])) =
  ["    plugins {"; "        id cifuzz"; "    }"; "    include app"].
Proof.
  exact (proj2 (FilterForInstructionBlocks_blocks fixtures.advice "")
           eq_refl).
Defined.

Lemma filters_agree_witness :
  map strings_TrimSpace
    (concat (FilterForInstructionBlocks (fixtures.advice ++ [""]))) =
  ["plugins {"; "id cifuzz"; "}"; "include app"].
Proof.
  exact (filters_agree fixtures.advice "" eq_refl).
Defined.

Lemma Run_returns_only_if_seen_witness :
  hasSeenExpectedOutputs
    (checker (joined (X := fixtures.calm) fixtures.ready_done
                fixtures.ready_done_more)) = true /\
  expectedOutputs
    (checker (joined (X := fixtures.calm) fixtures.ready_done
                fixtures.ready_done_more)) = [].
Proof.
  exact (Run_returns_only_if_seen (X := fixtures.calm) fixtures.ready_done
           fixtures.ready_done_more
           (joined (X := fixtures.calm) fixtures.ready_done
              fixtures.ready_done_more)
           eq_refl).
Defined.


Lemma Run_succeeds_witness :
  fst (Run (X := fixtures.calm) fixtures.ready_done
         fixtures.ready_done_more) = Returned tt /\
  failures (t (snd (Run (X := fixtures.calm) fixtures.ready_done
                      fixtures.ready_done_more))) = [].
Proof.
  apply (Run_succeeds (X := fixtures.calm) fixtures.ready_done
           fixtures.ready_done_more (Some fixtures.terminated)).
  - intros n. reflexivity.
  - intros s. reflexivity.
  - reflexivity.
  - reflexivity.
  - discriminate.
  - reflexivity.
  - right. split; reflexivity.
Defined.

End shared_more.
